(** * entryForm: the two-step sign-in flow

    A shallow embedding of the authentication core of the repository:
    - [User] ... [ApiErrorResponse]
                      the interfaces of src/api/types.ts, one module each
    - [Handlers]      src/mocks/handlers.ts (the simulated backend and its
                      [tempTokenStore])
    - [Auth]          src/api/auth.ts (the two request functions with their
                      catch blocks, and the token helpers over localStorage)
    - [AuthRuntime]   the two request functions over the bodies a response
                      can carry at run time
    - [AuthForm], [TwoFactorForm]
                      the two forms: [getErrorMessage], the mutation
                      callbacks, the validation of the login form and the
                      six code inputs of the 2FA form
    - [RegExp], [Js]  the JavaScript built-ins the forms call
    - [LoginPage]     src/pages/LoginPage.tsx (the flow controller)
    - [Flow], [CodeEntry], [LoginEntry]
                      the events that reach the page and the two forms

    Strings are [string], JS numbers that the code only compares or copies
    are [Z], the [Map] behind [tempTokenStore] and the browser's
    localStorage are [gmap string _]. A handler is a function from the store
    and the request body to a [Reply]: the response, the new store and the
    total time spent in [delay]. *)

From Stdlib Require Import Ascii.
From Stdlib Require QArith.
From stdpp Require Import base strings gmap pretty.

Open Scope Z_scope.

(** ** src/api/types.ts *)

Module User.
Record t := { id : Z; email : string }.
End User.

Module LoginResponse.
Record t := {
  token : string;
  user : User.t;
  requires2FA : bool;
  tempToken : option string   (* tempToken?: string *)
}.
End LoginResponse.

Module Verify2FAResponse.
Record t := { token : string; user : User.t }.
End Verify2FAResponse.

Module LoginCredentials.
Record t := { email : string; password : string }.
End LoginCredentials.

Module Verify2FACredentials.
Record t := { tempToken : string; code : string }.
End Verify2FACredentials.

Module ApiError.
Record t := { error : string; message : string }.
End ApiError.

Module ApiErrorResponse.
Record t := { status : Z; data : ApiError.t }.
End ApiErrorResponse.

(** The seven members of the union type [ApiErrorCode]. *)
Definition ApiErrorCode : list string :=
  [ "invalid_credentials"; "user_not_found"; "server_error";
    "network_error"; "timeout_error"; "invalid_2fa_code"; "2fa_expired" ]%string.

(** JS truthiness of a [string] and of a [string | null | undefined]. *)
Definition truthy (s : string) : bool := negb (s =? "")%string.

Definition truthy_opt (o : option string) : bool :=
  match o with
  | Some s => truthy s
  | None => false
  end.

(** ** src/mocks/handlers.ts *)

Module Handlers.

Module TEST_USERS.
Module valid.
Definition email : string := "test@example.com".
Definition password : string := "password123".
End valid.
Module notFound.
Definition email : string := "notfound@example.com".
End notFound.
Module serverError.
Definition email : string := "error@example.com".
End serverError.
Module slowResponse.
Definition email : string := "slow@example.com".
Definition password : string := "password123".
End slowResponse.
Module timeout.
Definition email : string := "timeout@example.com".
End timeout.
Module offline.
Definition email : string := "offline@example.com".
End offline.
End TEST_USERS.

Module TEST_2FA_CODES.
Definition valid : string := "123456".
Definition expired : string := "000000".
Definition timeout : string := "999999".
End TEST_2FA_CODES.

(** The values of [tempTokenStore]. *)
Record TokenData := { email : string; createdAt : Z }.

(** What a handler can pass to [HttpResponse.json]. *)
Inductive JsonBody :=
| LoginBody (r : LoginResponse.t)
| Verify2FABody (r : Verify2FAResponse.t)
| ApiErrorBody (e : ApiError.t)
| MessageBody (message : string).

(** [HttpResponse.json(body, { status })] (status 200 when omitted) and
    [HttpResponse.error()]. *)
Inductive HttpResponse :=
| json (body : JsonBody) (status : Z)
| error.

Record Reply := {
  delayed : Z;                          (* milliseconds awaited in [delay] *)
  response : HttpResponse;
  store : gmap string TokenData         (* [tempTokenStore] afterwards *)
}.

(** [`temp-token-${now}`] *)
Definition temp_token (now : Z) : string := "temp-token-" +:+ pretty now.

(** POST /api/auth/login. [now_token] and [now_created] are the two readings
    of [Date.now()] the success branches take. *)
Definition login (tempTokenStore : gmap string TokenData)
    (body : LoginCredentials.t) (now_token now_created : Z) : Reply :=
  let email := LoginCredentials.email body in
  let password := LoginCredentials.password body in
  if (email =? TEST_USERS.slowResponse.email)%string then
    let tempToken := temp_token now_token in
    {| delayed := 3000;
       response := json (LoginBody
         {| LoginResponse.token := "";
            LoginResponse.user := {| User.id := 2; User.email := email |};
            LoginResponse.requires2FA := true;
            LoginResponse.tempToken := Some tempToken |}) 200;
       store := <[tempToken := {| email := email; createdAt := now_created |}]>
                  tempTokenStore |}
  else if (email =? TEST_USERS.timeout.email)%string then
    {| delayed := 30000;
       response := json (MessageBody "This should timeout") 200;
       store := tempTokenStore |}
  else if (email =? TEST_USERS.offline.email)%string then
    {| delayed := 0; response := error; store := tempTokenStore |}
  else if (email =? TEST_USERS.serverError.email)%string then
    {| delayed := 500;
       response := json (ApiErrorBody
         {| ApiError.error := "server_error";
            ApiError.message := "Something went wrong" |}) 500;
       store := tempTokenStore |}
  else if (email =? TEST_USERS.notFound.email)%string then
    {| delayed := 500;
       response := json (ApiErrorBody
         {| ApiError.error := "user_not_found";
            ApiError.message := "User does not exist" |}) 404;
       store := tempTokenStore |}
  else if (email =? TEST_USERS.valid.email)%string
          && negb (password =? TEST_USERS.valid.password)%string then
    {| delayed := 500;
       response := json (ApiErrorBody
         {| ApiError.error := "invalid_credentials";
            ApiError.message := "Email or password is incorrect" |}) 401;
       store := tempTokenStore |}
  else if (email =? TEST_USERS.valid.email)%string
          && (password =? TEST_USERS.valid.password)%string then
    let tempToken := temp_token now_token in
    {| delayed := 800;
       response := json (LoginBody
         {| LoginResponse.token := "";
            LoginResponse.user := {| User.id := 1; User.email := email |};
            LoginResponse.requires2FA := true;
            LoginResponse.tempToken := Some tempToken |}) 200;
       store := <[tempToken := {| email := email; createdAt := now_created |}]>
                  tempTokenStore |}
  else
    {| delayed := 500;
       response := json (ApiErrorBody
         {| ApiError.error := "user_not_found";
            ApiError.message := "User does not exist" |}) 404;
       store := tempTokenStore |}.

(** POST /api/auth/verify-2fa. *)
Definition verify_2fa (tempTokenStore : gmap string TokenData)
    (body : Verify2FACredentials.t) : Reply :=
  let tempToken := Verify2FACredentials.tempToken body in
  let code := Verify2FACredentials.code body in
  if (code =? TEST_2FA_CODES.timeout)%string then
    {| delayed := 30000;
       response := json (MessageBody "This should timeout") 200;
       store := tempTokenStore |}
  else
    match tempTokenStore !! tempToken with
    | None =>
      {| delayed := 500;
         response := json (ApiErrorBody
           {| ApiError.error := "2fa_expired";
              ApiError.message := "2FA session has expired. Please login again." |}) 401;
         store := tempTokenStore |}
    | Some tokenData =>
      if (code =? TEST_2FA_CODES.expired)%string then
        {| delayed := 500;
           response := json (ApiErrorBody
             {| ApiError.error := "2fa_expired";
                ApiError.message := "2FA code has expired. Please request a new code." |}) 401;
           store := tempTokenStore |}
      else if negb (code =? TEST_2FA_CODES.valid)%string then
        {| delayed := 500;
           response := json (ApiErrorBody
             {| ApiError.error := "invalid_2fa_code";
                ApiError.message := "Invalid verification code. Please try again." |}) 401;
           store := tempTokenStore |}
      else
        {| delayed := 800;
           response := json (Verify2FABody
             {| Verify2FAResponse.token := "fake-jwt-token-after-2fa";
                Verify2FAResponse.user :=
                  {| User.id := 1; User.email := email tokenData |} |}) 200;
           store := delete tempToken tempTokenStore |}
    end.

End Handlers.

(** ** src/api/auth.ts *)

Module Auth.

(** What [apiClient.post] rejects with. An [AxiosError<ApiError>] carries an
    optional [code] and, when the server answered, the response; anything
    else thrown inside the [try] fails [axios.isAxiosError]. *)
Module AxiosResponse.
Record t := { status : Z; data : ApiError.t }.
End AxiosResponse.

Module AxiosError.
Record t := { code : option string; response : option AxiosResponse.t }.
End AxiosError.

Inductive Thrown :=
| ThrownAxios (axiosError : AxiosError.t)
| ThrownOther (description : string).

(** The settled promise of [apiClient.post<T>]. *)
Inductive Posted (T : Type) :=
| Resolved (data : T)
| Rejected (error : Thrown).
Arguments Resolved {T} data.
Arguments Rejected {T} error.

(** [timeout: 10000] of [apiClient]: the deadline of a request, in
    milliseconds. *)
Definition apiClient_timeout : Z := 10000.

(** [code === 'ECONNABORTED'] *)
Definition is_ECONNABORTED (code : option string) : bool :=
  match code with
  | Some c => (c =? "ECONNABORTED")%string
  | None => false
  end.

(** [login]: [inl] is the resolved value, [inr] the object it throws. *)
Definition login (posted : Posted LoginResponse.t)
    : LoginResponse.t + ApiErrorResponse.t :=
  match posted with
  | Resolved data => inl data
  | Rejected error =>
    match error with
    | ThrownAxios axiosError =>
      match AxiosError.response axiosError with
      | None =>
        if is_ECONNABORTED (AxiosError.code axiosError) then
          inr {| ApiErrorResponse.status := 0;
                 ApiErrorResponse.data :=
                   {| ApiError.error := "timeout_error";
                      ApiError.message := "Request timed out" |} |}
        else
          inr {| ApiErrorResponse.status := 0;
                 ApiErrorResponse.data :=
                   {| ApiError.error := "network_error";
                      ApiError.message := "Network error occurred" |} |}
      | Some response =>
        inr {| ApiErrorResponse.status := AxiosResponse.status response;
               ApiErrorResponse.data := AxiosResponse.data response |}
      end
    | ThrownOther _ =>
      inr {| ApiErrorResponse.status := 0;
             ApiErrorResponse.data :=
               {| ApiError.error := "unknown_error";
                  ApiError.message := "An unexpected error occurred" |} |}
    end
  end.

(** [verify2FA]: the same shape, written out a second time in the source. *)
Definition verify2FA (posted : Posted Verify2FAResponse.t)
    : Verify2FAResponse.t + ApiErrorResponse.t :=
  match posted with
  | Resolved data => inl data
  | Rejected error =>
    match error with
    | ThrownAxios axiosError =>
      match AxiosError.response axiosError with
      | None =>
        if is_ECONNABORTED (AxiosError.code axiosError) then
          inr {| ApiErrorResponse.status := 0;
                 ApiErrorResponse.data :=
                   {| ApiError.error := "timeout_error";
                      ApiError.message := "Request timed out" |} |}
        else
          inr {| ApiErrorResponse.status := 0;
                 ApiErrorResponse.data :=
                   {| ApiError.error := "network_error";
                      ApiError.message := "Network error occurred" |} |}
      | Some response =>
        inr {| ApiErrorResponse.status := AxiosResponse.status response;
               ApiErrorResponse.data := AxiosResponse.data response |}
      end
    | ThrownOther _ =>
      inr {| ApiErrorResponse.status := 0;
             ApiErrorResponse.data :=
               {| ApiError.error := "unknown_error";
                  ApiError.message := "An unexpected error occurred" |} |}
    end
  end.

(** localStorage: string keys to string values. *)
Definition saveToken (token : string) (localStorage : gmap string string)
    : gmap string string :=
  <["auth_token" := token]> localStorage.

Definition getToken (localStorage : gmap string string) : option string :=
  localStorage !! "auth_token".

Definition removeToken (localStorage : gmap string string)
    : gmap string string :=
  delete "auth_token" localStorage.

(** [!!getToken()] *)
Definition isAuthenticated (localStorage : gmap string string) : bool :=
  truthy_opt (getToken localStorage).

End Auth.

(** ** src/api/auth.ts at run time

    [Auth] follows the declared types: [error as AxiosError<ApiError>] makes
    [response.data] an [ApiError]. The cast checks nothing. At run time the
    body is whatever the server sent, a JSON value when it parsed as one and
    the text otherwise, and both catch blocks throw it uninspected.
    [AuthRuntime] is the same code over such bodies. *)

(** A JSON value; a number is a finite double, hence a rational. The
    properties of an object are listed once each. *)
#[local] Unset Elimination Schemes.
Inductive Json :=
| JNull
| JBoolean (b : bool)
| JNumber (q : QArith_base.Q)
| JString (s : string)
| JArray (items : list Json)
| JObject (properties : list (string * Json)).
#[local] Set Elimination Schemes.

(** [object[key]] on the listed properties. *)
Fixpoint property (key : string) (properties : list (string * Json))
    : option Json :=
  match properties with
  | [] => None
  | (k, v) :: rest => if (k =? key)%string then Some v else property key rest
  end.

(** The object literal [{ error, message }]. *)
Definition Json_of_ApiError (e : ApiError.t) : Json :=
  JObject [ ("error"%string, JString (ApiError.error e));
            ("message"%string, JString (ApiError.message e)) ].

(** Reading a value as an [ApiError]: an object whose [error] and
    [message] are strings. *)
Definition as_ApiError (v : Json) : option ApiError.t :=
  match v with
  | JObject properties =>
    match property "error" properties, property "message" properties with
    | Some (JString error), Some (JString message) =>
      Some {| ApiError.error := error; ApiError.message := message |}
    | _, _ => None
    end
  | _ => None
  end.

Module AuthRuntime.

Module AxiosResponse.
Record t := { status : Z; data : Json }.
End AxiosResponse.

Module AxiosError.
Record t := { code : option string; response : option AxiosResponse.t }.
End AxiosError.

Inductive Thrown :=
| ThrownAxios (axiosError : AxiosError.t)
| ThrownOther (description : string).

Inductive Posted :=
| Resolved (data : Json)
| Rejected (error : Thrown).

(** The object [{ status, data }] a catch block throws. *)
Module ThrownObject.
Record t := { status : Z; data : Json }.
End ThrownObject.

Definition login (posted : Posted) : Json + ThrownObject.t :=
  match posted with
  | Resolved data => inl data
  | Rejected error =>
    match error with
    | ThrownAxios axiosError =>
      match AxiosError.response axiosError with
      | None =>
        if Auth.is_ECONNABORTED (AxiosError.code axiosError) then
          inr {| ThrownObject.status := 0;
                 ThrownObject.data :=
                   Json_of_ApiError
                     {| ApiError.error := "timeout_error";
                        ApiError.message := "Request timed out" |} |}
        else
          inr {| ThrownObject.status := 0;
                 ThrownObject.data :=
                   Json_of_ApiError
                     {| ApiError.error := "network_error";
                        ApiError.message := "Network error occurred" |} |}
      | Some response =>
        inr {| ThrownObject.status := AxiosResponse.status response;
               ThrownObject.data := AxiosResponse.data response |}
      end
    | ThrownOther _ =>
      inr {| ThrownObject.status := 0;
             ThrownObject.data :=
               Json_of_ApiError
                 {| ApiError.error := "unknown_error";
                    ApiError.message := "An unexpected error occurred" |} |}
    end
  end.

Definition verify2FA (posted : Posted) : Json + ThrownObject.t :=
  match posted with
  | Resolved data => inl data
  | Rejected error =>
    match error with
    | ThrownAxios axiosError =>
      match AxiosError.response axiosError with
      | None =>
        if Auth.is_ECONNABORTED (AxiosError.code axiosError) then
          inr {| ThrownObject.status := 0;
                 ThrownObject.data :=
                   Json_of_ApiError
                     {| ApiError.error := "timeout_error";
                        ApiError.message := "Request timed out" |} |}
        else
          inr {| ThrownObject.status := 0;
                 ThrownObject.data :=
                   Json_of_ApiError
                     {| ApiError.error := "network_error";
                        ApiError.message := "Network error occurred" |} |}
      | Some response =>
        inr {| ThrownObject.status := AxiosResponse.status response;
               ThrownObject.data := AxiosResponse.data response |}
      end
    | ThrownOther _ =>
      inr {| ThrownObject.status := 0;
             ThrownObject.data :=
               Json_of_ApiError
                 {| ApiError.error := "unknown_error";
                    ApiError.message := "An unexpected error occurred" |} |}
    end
  end.

End AuthRuntime.

(** ** src/pages/LoginPage.tsx *)

Module LoginPage.

Record TwoFactorState := { tempToken : string; userEmail : string }.

(** The two [useState] cells of the component. *)
Record State := {
  twoFactorState : option TwoFactorState;
  isFullyAuthenticated : bool
}.

Definition initial : State :=
  {| twoFactorState := None; isFullyAuthenticated := false |}.

Definition handleLoginSuccess (response : LoginResponse.t) (st : State) : State :=
  if LoginResponse.requires2FA response
     && truthy_opt (LoginResponse.tempToken response) then
    (* the guard has just found [response.tempToken] to be a string *)
    {| twoFactorState :=
         Some {| tempToken := default "" (LoginResponse.tempToken response);
                 userEmail := User.email (LoginResponse.user response) |};
       isFullyAuthenticated := isFullyAuthenticated st |}
  else
    (* "Direct login without 2FA (if ever needed)" *)
    {| twoFactorState := twoFactorState st; isFullyAuthenticated := true |}.

Definition handle2FASuccess (response : Verify2FAResponse.t) (st : State) : State :=
  {| twoFactorState := twoFactorState st; isFullyAuthenticated := true |}.

Definition handleBackToLogin (st : State) : State :=
  {| twoFactorState := None; isFullyAuthenticated := isFullyAuthenticated st |}.

(** The [onClick] of the "Sign out (demo)" button. *)
Definition signOut (st : State) : State :=
  {| twoFactorState := None; isFullyAuthenticated := false |}.

(** Which of the three screens the component returns. *)
Inductive Screen := AwaitingCredentials | AwaitingCode | Authenticated.

Definition render (st : State) : Screen :=
  if isFullyAuthenticated st then Authenticated
  else match twoFactorState st with
       | Some _ => AwaitingCode
       | None => AwaitingCredentials
       end.

End LoginPage.

(** ** The JavaScript built-ins the forms call

    A [string] lists the code units of the JS string, one [ascii] each:
    the forms are modelled on strings whose code units are below 256. *)

(** Regular expressions: [test r s] is [/^r$/.test(s)], computed by
    derivatives; [matches] is what it decides. *)
Module RegExp.

Inductive t :=
| Never                          (* matches nothing *)
| Empty                          (* the empty string *)
| Class (p : ascii → bool)
| Seq (r1 r2 : t)
| Alt (r1 r2 : t)
| Star (r : t).

Definition Plus (r : t) : t := Seq r (Star r).

Fixpoint nullable (r : t) : bool :=
  match r with
  | Never => false
  | Empty => true
  | Class _ => false
  | Seq r1 r2 => nullable r1 && nullable r2
  | Alt r1 r2 => nullable r1 || nullable r2
  | Star _ => true
  end.

Fixpoint derive (c : ascii) (r : t) : t :=
  match r with
  | Never => Never
  | Empty => Never
  | Class p => if p c then Empty else Never
  | Seq r1 r2 =>
    if nullable r1 then Alt (Seq (derive c r1) r2) (derive c r2)
    else Seq (derive c r1) r2
  | Alt r1 r2 => Alt (derive c r1) (derive c r2)
  | Star r1 => Seq (derive c r1) (Star r1)
  end.

Fixpoint test (r : t) (s : string) : bool :=
  match s with
  | EmptyString => nullable r
  | String c s' => test (derive c r) s'
  end.

Inductive matches : t → list ascii → Prop :=
| matches_Empty : matches Empty []
| matches_Class p c : p c = true → matches (Class p) [c]
| matches_Seq r1 r2 s1 s2 :
    matches r1 s1 → matches r2 s2 → matches (Seq r1 r2) (s1 ++ s2)
| matches_Alt_l r1 r2 s : matches r1 s → matches (Alt r1 r2) s
| matches_Alt_r r1 r2 s : matches r2 s → matches (Alt r1 r2) s
| matches_Star_nil r : matches (Star r) []
| matches_Star_app r s1 s2 :
    matches r s1 → matches (Star r) s2 → matches (Star r) (s1 ++ s2).

End RegExp.

Module Js.

(** [\d] *)
Definition is_digit (c : ascii) : bool :=
  let n := N_of_ascii c in (48 <=? n)%N && (n <=? 57)%N.

(** [\s] on code units below 256: TAB, LF, VT, FF, CR, space, NBSP. *)
Definition is_space (c : ascii) : bool :=
  existsb (N.eqb (N_of_ascii c)) [9; 10; 11; 12; 13; 32; 160]%N.

(** [s.replace(/\D/g, '')] *)
Fixpoint remove_non_digits (s : string) : string :=
  match s with
  | EmptyString => EmptyString
  | String c s' =>
    if is_digit c then String c (remove_non_digits s')
    else remove_non_digits s'
  end.

(** [cells.join('')] *)
Definition join (cells : list string) : string := String.concat "" cells.

(** [cells[i] = v]. Within the array the cell is replaced; beyond its end
    JS extends the array, and the cells skipped read as [undefined], which
    [join] and [!cell] treat like ['']. *)
Definition array_set (cells : list string) (i : nat) (v : string)
    : list string :=
  if (i <? length cells)%nat then <[i := v]> cells
  else cells ++ replicate (i - length cells) ""%string ++ [v].

(** [cells.findIndex(p)], with [None] for -1. *)
Fixpoint findIndex (p : string → bool) (cells : list string) : option nat :=
  match cells with
  | [] => None
  | cell :: rest => if p cell then Some 0%nat else S <$> findIndex p rest
  end.

End Js.

(** ** src/components/AuthForm *)

Module AuthForm.

Definition getErrorMessage (error : ApiErrorResponse.t) : string :=
  let status := ApiErrorResponse.status error in
  let data := ApiErrorResponse.data error in
  if status =? 0 then
    if (ApiError.error data =? "timeout_error")%string then
      "Request timed out. Please try again."
    else if (ApiError.error data =? "network_error")%string then
      "Connection problem. Please check your network."
    else "An unexpected error occurred. Please try again."
  else if status =? 401 then "Incorrect email or password."
  else if status =? 404 then "User not found."
  else if status =? 500 then "Server error. Please try again later."
  else if truthy (ApiError.message data) then ApiError.message data
  else "An unexpected error occurred.".

(** [loginMutation]'s [onSuccess], with the page's handler as the
    [onSuccess] prop: it acts on localStorage and on the page state. *)
Definition onSuccess (data : LoginResponse.t)
    (world : gmap string string * LoginPage.State)
    : gmap string string * LoginPage.State :=
  (Auth.saveToken (LoginResponse.token data) world.1,
   LoginPage.handleLoginSuccess data world.2).

(** [/^[^\s@]+@[^\s@]+\.[^\s@]+$/] *)
Definition EMAIL_REGEX : RegExp.t :=
  let not_space_or_at :=
    RegExp.Class (λ c, negb (Js.is_space c || Ascii.eqb c "@")) in
  RegExp.Seq (RegExp.Plus not_space_or_at)
    (RegExp.Seq (RegExp.Class (λ c, Ascii.eqb c "@"))
       (RegExp.Seq (RegExp.Plus not_space_or_at)
          (RegExp.Seq (RegExp.Class (λ c, Ascii.eqb c "."))
             (RegExp.Plus not_space_or_at)))).

(** The three [useState] cells of the form. *)
Module Touched.
Record t := { email : bool; password : bool }.
End Touched.

Record State := { email : string; password : string; touched : Touched.t }.

Definition initial : State :=
  {| email := ""; password := "";
     touched := {| Touched.email := false; Touched.password := false |} |}.

Definition emailError (st : State) : string :=
  if negb (Touched.email (touched st)) then ""
  else if negb (truthy (email st)) then "Email is required"
  else if negb (RegExp.test EMAIL_REGEX (email st)) then
    "Please enter a valid email"
  else "".

Definition passwordError (st : State) : string :=
  if negb (Touched.password (touched st)) then ""
  else if negb (truthy (password st)) then "Password is required"
  else "".

Definition isFormValid (st : State) : bool :=
  truthy (email st) && RegExp.test EMAIL_REGEX (email st)
  && truthy (password st).

Definition handleEmailChange (value : string) (st : State) : State :=
  {| email := value; password := password st; touched := touched st |}.

Definition handlePasswordChange (value : string) (st : State) : State :=
  {| email := email st; password := value; touched := touched st |}.

Definition handleEmailBlur (st : State) : State :=
  {| email := email st; password := password st;
     touched := {| Touched.email := true;
                   Touched.password := Touched.password (touched st) |} |}.

Definition handlePasswordBlur (st : State) : State :=
  {| email := email st; password := password st;
     touched := {| Touched.email := Touched.email (touched st);
                   Touched.password := true |} |}.

(** [handleSubmit]: the new form state and the credentials handed to
    [loginMutation.mutate], if any. *)
Definition handleSubmit (st : State) : State * option LoginCredentials.t :=
  ({| email := email st; password := password st;
      touched := {| Touched.email := true; Touched.password := true |} |},
   if negb (isFormValid st) then None
   else Some {| LoginCredentials.email := email st;
                LoginCredentials.password := password st |}).

End AuthForm.

(** ** src/components/TwoFactorForm *)

Module TwoFactorForm.

Definition getErrorMessage (error : ApiErrorResponse.t) : string :=
  let status := ApiErrorResponse.status error in
  let data := ApiErrorResponse.data error in
  if status =? 0 then
    if (ApiError.error data =? "timeout_error")%string then
      "Request timed out. Please try again."
    else if (ApiError.error data =? "network_error")%string then
      "Connection problem. Please check your network."
    else "An unexpected error occurred. Please try again."
  else if (ApiError.error data =? "invalid_2fa_code")%string then
    "Invalid verification code. Please try again."
  else if (ApiError.error data =? "2fa_expired")%string then
    "Verification session expired. Please login again."
  else if truthy (ApiError.message data) then ApiError.message data
  else "An unexpected error occurred.".

(** [verify2FAMutation]'s [onSuccess]. *)
Definition onSuccess (data : Verify2FAResponse.t)
    (world : gmap string string * LoginPage.State)
    : gmap string string * LoginPage.State :=
  (Auth.saveToken (Verify2FAResponse.token data) world.1,
   LoginPage.handle2FASuccess data world.2).

(** [useState(['', '', '', '', '', ''])] *)
Definition initial_code : list string :=
  [ ""; ""; ""; ""; ""; "" ]%string.

Definition fullCode (code : list string) : string := Js.join code.

Definition isCodeComplete (code : list string) : bool :=
  (String.length (fullCode code) =? 6)%nat.

(** [handleDigitChange]: the new cells (from [prev]) and the index of the
    input it asks to focus, if any. *)
Definition handleDigitChange (index : nat) (value : string)
    (prev : list string) : list string * option nat :=
  if truthy value && negb (RegExp.test (RegExp.Class Js.is_digit) value) then
    (prev, None)
  else
    (Js.array_set prev index value,
     if truthy value && (index <? 5)%nat then Some (index + 1)%nat else None).

(** The [for] loop of [handlePaste], from index [i] on. *)
Fixpoint paste_loop (i : nat) (pastedData : string) (newCode : list string)
    : list string :=
  match pastedData with
  | EmptyString => newCode
  | String c rest =>
    paste_loop (S i) rest (Js.array_set newCode i (String c EmptyString))
  end.

(** [handlePaste], given the clipboard's text. *)
Definition handlePaste (text : string) (code : list string)
    : list string * option nat :=
  let pastedData := String.substring 0 6 (Js.remove_non_digits text) in
  if truthy pastedData then
    let newCode := paste_loop 0 pastedData code in
    let focusIndex :=
      match Js.findIndex (λ digit, negb (truthy digit)) newCode with
      | None => 5%nat
      | Some nextEmptyIndex => nextEmptyIndex
      end in
    (newCode, Some focusIndex)
  else (code, None).

(** [handleKeyDown], given [e.key]: the index of the input to focus. *)
Definition handleKeyDown (index : nat) (key : string) (code : list string)
    : option nat :=
  if (key =? "Backspace")%string && negb (truthy_opt (code !! index))
     && (0 <? index)%nat
  then Some (index - 1)%nat
  else None.

(** [handleSubmit]: the credentials handed to [verify2FAMutation.mutate],
    if any. *)
Definition handleSubmit (tempToken : string) (code : list string)
    : option Verify2FACredentials.t :=
  if negb (isCodeComplete code) then None
  else Some {| Verify2FACredentials.tempToken := tempToken;
               Verify2FACredentials.code := fullCode code |}.

End TwoFactorForm.

(** ** Typing and pasting a code

    What the six inputs can do to the cells of the 2FA form. *)

Module CodeEntry.

Inductive Event :=
| DigitChange (index : nat) (value : string)
| Paste (text : string).

Definition step (code : list string) (ev : Event) : list string :=
  match ev with
  | DigitChange index value =>
    (TwoFactorForm.handleDigitChange index value code).1
  | Paste text => (TwoFactorForm.handlePaste text code).1
  end.

Definition run (code : list string) (events : list Event) : list string :=
  foldl step code events.

(** The inputs rendered are those of the cells: an event names one of the
    six. *)
Definition on_an_input (ev : Event) : Prop :=
  match ev with
  | DigitChange index _ => (index < 6)%nat
  | Paste _ => True
  end.

(** A cell is empty or one decimal digit. *)
Definition cell_ok (cell : string) : Prop :=
  cell = ""%string
  ∨ ∃ d, Js.is_digit d = true ∧ cell = String d EmptyString.

(** The string of one digit per character. *)
Definition digits_only (s : string) : Prop :=
  Forall (λ c, Js.is_digit c = true) (String.list_ascii_of_string s).

End CodeEntry.

(** ** Filling in the login form

    What the two fields can do to the state of the login form. *)

Module LoginEntry.

Inductive Event :=
| EmailChange (value : string)
| PasswordChange (value : string)
| EmailBlur
| PasswordBlur
| Submit.

Definition step (st : AuthForm.State) (ev : Event) : AuthForm.State :=
  match ev with
  | EmailChange value => AuthForm.handleEmailChange value st
  | PasswordChange value => AuthForm.handlePasswordChange value st
  | EmailBlur => AuthForm.handleEmailBlur st
  | PasswordBlur => AuthForm.handlePasswordBlur st
  | Submit => (AuthForm.handleSubmit st).1
  end.

Definition run (st : AuthForm.State) (events : list Event) : AuthForm.State :=
  foldl step st events.

Definition is_typing (ev : Event) : bool :=
  match ev with
  | EmailChange _ | PasswordChange _ => true
  | _ => false
  end.

End LoginEntry.

(** ** The flow as the page sees it

    What reaches the controller: the settled mutations of the two forms and
    the two buttons. A rejected mutation stays inside its form (it only
    feeds [getErrorMessage]); no page handler runs. *)

Module Flow.

Inductive Event :=
| LoginSettled (result : LoginResponse.t + ApiErrorResponse.t)
| Verify2FASettled (result : Verify2FAResponse.t + ApiErrorResponse.t)
| Back
| SignOut.

Definition step (world : gmap string string * LoginPage.State) (ev : Event)
    : gmap string string * LoginPage.State :=
  match ev with
  | LoginSettled (inl data) => AuthForm.onSuccess data world
  | LoginSettled (inr _) => world
  | Verify2FASettled (inl data) => TwoFactorForm.onSuccess data world
  | Verify2FASettled (inr _) => world
  | Back => (world.1, LoginPage.handleBackToLogin world.2)
  | SignOut => (world.1, LoginPage.signOut world.2)
  end.

Definition run (world : gmap string string * LoginPage.State)
    (trace : list Event) : gmap string string * LoginPage.State :=
  foldl step world trace.

(** A successful login response that sends the page to the code screen. *)
Definition asks_for_code (response : LoginResponse.t) : bool :=
  LoginResponse.requires2FA response
  && truthy_opt (LoginResponse.tempToken response).

Definition is_verify_success (ev : Event) : bool :=
  match ev with
  | Verify2FASettled (inl _) => true
  | _ => false
  end.

Definition is_direct_login (ev : Event) : bool :=
  match ev with
  | LoginSettled (inl data) => negb (asks_for_code data)
  | _ => false
  end.

End Flow.

(** ** Vocabulary of the properties *)

Module Vocabulary.

Import Handlers Auth Flow.

(** The e-mail addresses [TEST_USERS] names. *)
Definition designated_emails : list string :=
  [ TEST_USERS.valid.email; TEST_USERS.notFound.email;
    TEST_USERS.serverError.email; TEST_USERS.slowResponse.email;
    TEST_USERS.timeout.email; TEST_USERS.offline.email ].

(** A reply the client does not take for a success: a status outside
    200..299 (axios' default [validateStatus]) or no response at all. *)
Definition is_failure (r : HttpResponse) : bool :=
  match r with
  | json _ status => negb ((200 <=? status) && (status <? 300))
  | error => true
  end.

(** The response an error carries, if any. *)
Definition received_response (error : Thrown) : option AxiosResponse.t :=
  match error with
  | ThrownAxios axiosError => AxiosError.response axiosError
  | ThrownOther _ => None
  end.

Definition timeout_outcome : ApiErrorResponse.t :=
  {| ApiErrorResponse.status := 0;
     ApiErrorResponse.data :=
       {| ApiError.error := "timeout_error";
          ApiError.message := "Request timed out" |} |}.

Definition network_outcome : ApiErrorResponse.t :=
  {| ApiErrorResponse.status := 0;
     ApiErrorResponse.data :=
       {| ApiError.error := "network_error";
          ApiError.message := "Network error occurred" |} |}.

Definition unknown_outcome : ApiErrorResponse.t :=
  {| ApiErrorResponse.status := 0;
     ApiErrorResponse.data :=
       {| ApiError.error := "unknown_error";
          ApiError.message := "An unexpected error occurred" |} |}.

(** The error codes a response body may carry explicitly (spec, 4.3 rule 3). *)
Definition explicit_error_codes : list string :=
  [ "invalid_credentials"; "user_not_found"; "server_error";
    "invalid_2fa_code"; "2fa_expired" ]%string.

(** The client-visible message table of the spec (section 6): error code,
    status, message. *)
Definition message_table : list (string * Z * string) :=
  [ ("invalid_credentials", 401, "Incorrect email or password.");
    ("user_not_found", 404, "User not found.");
    ("server_error", 500, "Server error. Please try again later.");
    ("invalid_2fa_code", 401, "Invalid verification code. Please try again.");
    ("2fa_expired", 401, "Verification session expired. Please login again.");
    ("timeout_error", 0, "Request timed out. Please try again.");
    ("network_error", 0, "Connection problem. Please check your network.") ]%string.

(** The codes a login request can fail with, and those of a verify request
    (the two contracts of the spec, section 6; status 0 is the transport). *)
Definition login_failure_codes : list string :=
  [ "invalid_credentials"; "user_not_found"; "server_error";
    "timeout_error"; "network_error" ]%string.

Definition verify_failure_codes : list string :=
  [ "invalid_2fa_code"; "2fa_expired";
    "timeout_error"; "network_error" ]%string.

(** An event that stores no terminal token: anything but a successful
    verify, a successful login only with the empty [token]. *)
Definition stores_no_token (ev : Event) : Prop :=
  match ev with
  | LoginSettled (inl data) => LoginResponse.token data = ""%string
  | Verify2FASettled (inl _) => False
  | _ => True
  end.

(** A thrown object is a FailureOutcome when its [data] carries an error
    code and a message. *)
Definition is_FailureOutcome (thrown : AuthRuntime.ThrownObject.t) : Prop :=
  is_Some (as_ApiError (AuthRuntime.ThrownObject.data thrown)).

(** The response a run-time error carries, if any. *)
Definition runtime_received_response (error : AuthRuntime.Thrown)
    : option AuthRuntime.AxiosResponse.t :=
  match error with
  | AuthRuntime.ThrownAxios axiosError =>
    AuthRuntime.AxiosError.response axiosError
  | AuthRuntime.ThrownOther _ => None
  end.

(** A typed outcome and a typed error as the run-time values they are. *)
Definition runtime_of_outcome (outcome : ApiErrorResponse.t)
    : AuthRuntime.ThrownObject.t :=
  {| AuthRuntime.ThrownObject.status := ApiErrorResponse.status outcome;
     AuthRuntime.ThrownObject.data :=
       Json_of_ApiError (ApiErrorResponse.data outcome) |}.

Definition runtime_of_thrown (error : Thrown) : AuthRuntime.Thrown :=
  match error with
  | ThrownAxios axiosError =>
    AuthRuntime.ThrownAxios
      {| AuthRuntime.AxiosError.code := AxiosError.code axiosError;
         AuthRuntime.AxiosError.response :=
           (λ r, {| AuthRuntime.AxiosResponse.status := AxiosResponse.status r;
                    AuthRuntime.AxiosResponse.data :=
                      Json_of_ApiError (AxiosResponse.data r) |})
             <$> AxiosError.response axiosError |}
  | ThrownOther description => AuthRuntime.ThrownOther description
  end.

(** A character that [[^\s@]] accepts. *)
Definition plain (c : ascii) : Prop := Js.is_space c = false ∧ c ≠ "@"%char.

(** The token an event makes its form save, and the last one of a trace. *)
Definition saved_token (ev : Event) : option string :=
  match ev with
  | LoginSettled (inl data) => Some (LoginResponse.token data)
  | Verify2FASettled (inl data) => Some (Verify2FAResponse.token data)
  | _ => None
  end.

Definition last_saved_token (trace : list Event) : option string :=
  foldl (λ acc ev, match saved_token ev with Some t => Some t | None => acc end)
    None trace.

(** Closes a goal from [H : x ∈ l] when [x] differs from every member of
    the literal list [l]. *)
Ltac absurd_member H :=
  exfalso;
  repeat (apply elem_of_cons in H as [H | H]; [discriminate H |]);
  by apply elem_of_nil in H.

End Vocabulary.

(** * Properties *)

(** ** The simulated backend *)

Section HandlersFacts.

Import Handlers Vocabulary.

Implicit Types (tempTokenStore : gmap string TokenData).

Lemma temp_token_cons now :
  ∃ s, temp_token now = String "t"%char s.
Proof. by eexists. Qed.

Lemma temp_token_nonempty now : temp_token now ≠ "".
Proof. by destruct (temp_token_cons now) as [s ->]. Qed.

Lemma temp_token_truthy now : truthy (temp_token now) = true.
Proof. by destruct (temp_token_cons now) as [s ->]. Qed.

Lemma eqb_false_of_ne (a b : string) : a ≠ b → (a =? b)%string = false.
Proof. by intros; apply String.eqb_neq. Qed.

(** The two ways the login handler succeeds. *)
Lemma login_success_inv tempTokenStore body now_token now_created r status :
  response (login tempTokenStore body now_token now_created)
    = json (LoginBody r) status →
  status = 200
  ∧ LoginResponse.token r = ""
  ∧ LoginResponse.requires2FA r = true
  ∧ LoginResponse.tempToken r = Some (temp_token now_token)
  ∧ User.email (LoginResponse.user r) = LoginCredentials.email body
  ∧ store (login tempTokenStore body now_token now_created)
      = <[temp_token now_token :=
            {| email := LoginCredentials.email body;
               createdAt := now_created |}]> tempTokenStore.
Proof.
  unfold login.
  repeat (case_match; simpl); intros [= <- <-]; done.
Qed.

Lemma verify_2fa_timeout tempTokenStore tempToken :
  verify_2fa tempTokenStore
    {| Verify2FACredentials.tempToken := tempToken;
       Verify2FACredentials.code := TEST_2FA_CODES.timeout |}
  = {| delayed := 30000;
       response := json (MessageBody "This should timeout") 200;
       store := tempTokenStore |}.
Proof. reflexivity. Qed.

Lemma verify_2fa_absent tempTokenStore body :
  Verify2FACredentials.code body ≠ TEST_2FA_CODES.timeout →
  tempTokenStore !! Verify2FACredentials.tempToken body = None →
  verify_2fa tempTokenStore body
  = {| delayed := 500;
       response := json (ApiErrorBody
         {| ApiError.error := "2fa_expired";
            ApiError.message := "2FA session has expired. Please login again." |}) 401;
       store := tempTokenStore |}.
Proof.
  intros Hc Hnone. unfold verify_2fa.
  rewrite (eqb_false_of_ne _ _ Hc), Hnone. reflexivity.
Qed.

Lemma verify_2fa_expired tempTokenStore tempToken tokenData :
  tempTokenStore !! tempToken = Some tokenData →
  verify_2fa tempTokenStore
    {| Verify2FACredentials.tempToken := tempToken;
       Verify2FACredentials.code := TEST_2FA_CODES.expired |}
  = {| delayed := 500;
       response := json (ApiErrorBody
         {| ApiError.error := "2fa_expired";
            ApiError.message := "2FA code has expired. Please request a new code." |}) 401;
       store := tempTokenStore |}.
Proof. intros H. unfold verify_2fa. simpl. rewrite H. reflexivity. Qed.

Lemma verify_2fa_invalid tempTokenStore body tokenData :
  tempTokenStore !! Verify2FACredentials.tempToken body = Some tokenData →
  Verify2FACredentials.code body ≠ TEST_2FA_CODES.timeout →
  Verify2FACredentials.code body ≠ TEST_2FA_CODES.expired →
  Verify2FACredentials.code body ≠ TEST_2FA_CODES.valid →
  verify_2fa tempTokenStore body
  = {| delayed := 500;
       response := json (ApiErrorBody
         {| ApiError.error := "invalid_2fa_code";
            ApiError.message := "Invalid verification code. Please try again." |}) 401;
       store := tempTokenStore |}.
Proof.
  intros H Ht He Hv. unfold verify_2fa.
  rewrite (eqb_false_of_ne _ _ Ht), H, (eqb_false_of_ne _ _ He),
    (eqb_false_of_ne _ _ Hv).
  reflexivity.
Qed.

Lemma verify_2fa_valid tempTokenStore tempToken tokenData :
  tempTokenStore !! tempToken = Some tokenData →
  verify_2fa tempTokenStore
    {| Verify2FACredentials.tempToken := tempToken;
       Verify2FACredentials.code := TEST_2FA_CODES.valid |}
  = {| delayed := 800;
       response := json (Verify2FABody
         {| Verify2FAResponse.token := "fake-jwt-token-after-2fa";
            Verify2FAResponse.user :=
              {| User.id := 1; User.email := email tokenData |} |}) 200;
       store := delete tempToken tempTokenStore |}.
Proof. intros H. unfold verify_2fa. simpl. rewrite H. reflexivity. Qed.

(** C7. A verify call with the valid code "123456" and a token present in
    the store deletes that PendingSession and answers 200 with a
    VerifiedSession whose user e-mail is the one recorded in the
    PendingSession and whose access token is "fake-jwt-token-after-2fa". *)
Theorem verify_valid_code_consumes_session
    tempTokenStore (tempToken : string) (tokenData : TokenData) :
  tempTokenStore !! tempToken = Some tokenData →
  let reply :=
    verify_2fa tempTokenStore
      {| Verify2FACredentials.tempToken := tempToken;
         Verify2FACredentials.code := "123456" |} in
  response reply
    = json (Verify2FABody
        {| Verify2FAResponse.token := "fake-jwt-token-after-2fa";
           Verify2FAResponse.user :=
             {| User.id := 1; User.email := email tokenData |} |}) 200
  ∧ store reply = delete tempToken tempTokenStore
  ∧ store reply !! tempToken = None.
Proof.
  intros Hlive reply. subst reply.
  change "123456"%string with TEST_2FA_CODES.valid.
  rewrite (verify_2fa_valid _ _ _ Hlive). simpl.
  split_and!; [done | done | apply lookup_delete_eq].
Qed.

Lemma verify_valid_code_consumes_session_witness :
  let tempTokenStore : gmap string TokenData :=
    {[ "temp-token-1700000000000"%string :=
         {| email := "test@example.com"; createdAt := 1700000000001 |} ]} in
  let reply :=
    verify_2fa tempTokenStore
      {| Verify2FACredentials.tempToken := "temp-token-1700000000000";
         Verify2FACredentials.code := "123456" |} in
  response reply
    = json (Verify2FABody
        {| Verify2FAResponse.token := "fake-jwt-token-after-2fa";
           Verify2FAResponse.user :=
             {| User.id := 1; User.email := "test@example.com" |} |}) 200
  ∧ store reply = delete "temp-token-1700000000000"%string tempTokenStore
  ∧ store reply !! "temp-token-1700000000000"%string = None.
Proof.
  intros tempTokenStore.
  apply (verify_valid_code_consumes_session tempTokenStore
           "temp-token-1700000000000"
           {| email := "test@example.com"; createdAt := 1700000000001 |}).
  reflexivity.
Defined.

(** C1. The token a successful login issues is single-use: the first verify
    with it and the valid code "123456" succeeds and deletes the store
    entry, the second verify with the same token and code is answered
    401 [2fa_expired]. *)
Theorem pending_token_is_single_use
    tempTokenStore (body : LoginCredentials.t) (now_token now_created : Z)
    (r : LoginResponse.t) (status : Z) :
  response (login tempTokenStore body now_token now_created)
    = json (LoginBody r) status →
  ∃ tempToken,
    LoginResponse.tempToken r = Some tempToken
    ∧ let credentials :=
        {| Verify2FACredentials.tempToken := tempToken;
           Verify2FACredentials.code := "123456" |} in
      let first :=
        verify_2fa (store (login tempTokenStore body now_token now_created))
          credentials in
      let second := verify_2fa (store first) credentials in
      (∃ verified, response first = json (Verify2FABody verified) 200)
      ∧ store first !! tempToken = None
      ∧ response second
          = json (ApiErrorBody
              {| ApiError.error := "2fa_expired";
                 ApiError.message :=
                   "2FA session has expired. Please login again." |}) 401.
Proof.
  intros Hlogin.
  destruct (login_success_inv _ _ _ _ _ _ Hlogin)
    as (_ & _ & _ & Htok & _ & Hstore).
  exists (temp_token now_token). split; [done |].
  intros credentials first second. subst credentials first second.
  rewrite Hstore.
  change "123456"%string with TEST_2FA_CODES.valid.
  rewrite (verify_2fa_valid _ _ _ (lookup_insert_eq _ _ _)). simpl.
  split_and!.
  - by eexists.
  - apply lookup_delete_eq.
  - rewrite verify_2fa_absent; [done | done |]. apply lookup_delete_eq.
Qed.

Lemma pending_token_is_single_use_witness :
  let after_login :=
    store (login ∅
      {| LoginCredentials.email := "test@example.com";
         LoginCredentials.password := "password123" |} 1700000000000 1700000000001) in
  let credentials :=
    {| Verify2FACredentials.tempToken := "temp-token-1700000000000";
       Verify2FACredentials.code := "123456" |} in
  (∃ verified,
     response (verify_2fa after_login credentials)
       = json (Verify2FABody verified) 200)
  ∧ response (verify_2fa (store (verify_2fa after_login credentials)) credentials)
      = json (ApiErrorBody
          {| ApiError.error := "2fa_expired";
             ApiError.message :=
               "2FA session has expired. Please login again." |}) 401.
Proof.
  intros after_login credentials.
  destruct (pending_token_is_single_use ∅
              {| LoginCredentials.email := "test@example.com";
                 LoginCredentials.password := "password123" |}
              1700000000000 1700000000001
              {| LoginResponse.token := "";
                 LoginResponse.user :=
                   {| User.id := 1; User.email := "test@example.com" |};
                 LoginResponse.requires2FA := true;
                 LoginResponse.tempToken := Some "temp-token-1700000000000"%string |}
              200 eq_refl)
    as (tempToken & Htok & Hfirst & _ & Hsecond).
  injection Htok as <-.
  exact (conj Hfirst Hsecond).
Defined.

(** C10. Every successful verify response carries user id 1, whichever
    login created the PendingSession: a session created by the slow-response
    login, whose own response reports user id 2, still verifies to a
    VerifiedSession with user id 1 (and the slow e-mail). *)
Theorem verify_user_id_is_constant_1 :
  (∀ tempTokenStore (body : Verify2FACredentials.t)
     (verified : Verify2FAResponse.t) (status : Z),
     response (verify_2fa tempTokenStore body)
       = json (Verify2FABody verified) status →
     User.id (Verify2FAResponse.user verified) = 1)
  ∧ (∀ tempTokenStore (password : string) (now_token now_created : Z),
       let logged :=
         login tempTokenStore
           {| LoginCredentials.email := "slow@example.com";
              LoginCredentials.password := password |}
           now_token now_created in
       ∃ (r : LoginResponse.t) (tempToken : string)
         (verified : Verify2FAResponse.t),
         response logged = json (LoginBody r) 200
         ∧ User.id (LoginResponse.user r) = 2
         ∧ LoginResponse.tempToken r = Some tempToken
         ∧ response (verify_2fa (store logged)
                       {| Verify2FACredentials.tempToken := tempToken;
                          Verify2FACredentials.code := "123456" |})
             = json (Verify2FABody verified) 200
         ∧ User.id (Verify2FAResponse.user verified) = 1
         ∧ User.email (Verify2FAResponse.user verified) = "slow@example.com").
Proof.
  split.
  - intros tempTokenStore body verified status. unfold verify_2fa.
    repeat (case_match; simpl); intros [= <- <-]; done.
  - intros tempTokenStore password now_token now_created logged.
    subst logged. unfold login. simpl.
    eexists _, (temp_token now_token), _.
    split_and!; [reflexivity | reflexivity | reflexivity | | |].
    + change "123456"%string with TEST_2FA_CODES.valid.
      rewrite (verify_2fa_valid _ _ _ (lookup_insert_eq _ _ _)). reflexivity.
    + reflexivity.
    + reflexivity.
Qed.

Lemma verify_user_id_is_constant_1_witness :
  User.id (Verify2FAResponse.user
    {| Verify2FAResponse.token := "fake-jwt-token-after-2fa";
       Verify2FAResponse.user :=
         {| User.id := 1; User.email := "slow@example.com" |} |}) = 1.
Proof.
  apply (proj1 verify_user_id_is_constant_1
           {[ "temp-token-5"%string :=
                {| email := "slow@example.com"; createdAt := 6 |} ]}
           {| Verify2FACredentials.tempToken := "temp-token-5";
              Verify2FACredentials.code := "123456" |}
           _ 200).
  reflexivity.
Defined.

(** C5. Login with "test@example.com" and "password123" always succeeds
    with [requires2FA = true], an empty terminal token and a non-empty
    tempToken under which a PendingSession is stored; login with any e-mail
    that is not one of the designated test e-mails always fails with
    404 [user_not_found] and leaves the store alone; and no reply of the
    login handler carries a terminal access token: a login body has the
    empty [token], and a verify body is never sent. *)
Theorem login_requires_2fa_and_denies_by_default :
  (∀ tempTokenStore (now_token now_created : Z),
     let reply :=
       login tempTokenStore
         {| LoginCredentials.email := "test@example.com";
            LoginCredentials.password := "password123" |}
         now_token now_created in
     ∃ tempToken : string,
       response reply
         = json (LoginBody
             {| LoginResponse.token := "";
                LoginResponse.user :=
                  {| User.id := 1; User.email := "test@example.com" |};
                LoginResponse.requires2FA := true;
                LoginResponse.tempToken := Some tempToken |}) 200
       ∧ tempToken ≠ ""
       ∧ store reply !! tempToken
           = Some {| email := "test@example.com"; createdAt := now_created |})
  ∧ (∀ tempTokenStore (body : LoginCredentials.t) (now_token now_created : Z),
       LoginCredentials.email body ∉ designated_emails →
       response (login tempTokenStore body now_token now_created)
         = json (ApiErrorBody
             {| ApiError.error := "user_not_found";
                ApiError.message := "User does not exist" |}) 404
       ∧ store (login tempTokenStore body now_token now_created)
           = tempTokenStore)
  ∧ (∀ tempTokenStore (body : LoginCredentials.t) (now_token now_created : Z),
       match response (login tempTokenStore body now_token now_created) with
       | json (LoginBody r) _ =>
         LoginResponse.token r = "" ∧ LoginResponse.requires2FA r = true
       | json (Verify2FABody _) _ => False
       | _ => True
       end).
Proof.
  split_and!.
  - intros tempTokenStore now_token now_created reply. subst reply.
    exists (temp_token now_token). unfold login. simpl.
    split_and!; [reflexivity | apply temp_token_nonempty |].
    apply lookup_insert_eq.
  - intros tempTokenStore body now_token now_created Hnot.
    unfold designated_emails in Hnot.
    repeat (apply not_elem_of_cons in Hnot; destruct Hnot as [? Hnot]).
    unfold login.
    rewrite !eqb_false_of_ne by done. done.
  - intros tempTokenStore body now_token now_created. unfold login.
    repeat (case_match; simplify_eq/=); done.
Qed.

Lemma login_requires_2fa_and_denies_by_default_witness :
  response (login ∅
    {| LoginCredentials.email := "nobody@example.com";
       LoginCredentials.password := "password123" |} 1700000000000 1700000000001)
  = json (ApiErrorBody
      {| ApiError.error := "user_not_found";
         ApiError.message := "User does not exist" |}) 404.
Proof.
  apply (proj1 (proj2 login_requires_2fa_and_denies_by_default) ∅
           {| LoginCredentials.email := "nobody@example.com";
              LoginCredentials.password := "password123" |}
           1700000000000 1700000000001).
  unfold designated_emails. simpl.
  repeat (apply not_elem_of_cons; split; [discriminate |]).
  apply not_elem_of_nil.
Defined.

(** When the verify handler fails: on every code but the timeout code
    "999999" (answered 200 after 30 s whatever the token), as soon as the
    token is absent or the code is not the valid one. *)
Lemma verify_2fa_fails_iff tempTokenStore (body : Verify2FACredentials.t) :
  is_failure (response (verify_2fa tempTokenStore body)) = true
  ↔ Verify2FACredentials.code body ≠ TEST_2FA_CODES.timeout
    ∧ (tempTokenStore !! Verify2FACredentials.tempToken body = None
       ∨ Verify2FACredentials.code body ≠ TEST_2FA_CODES.valid).
Proof.
  unfold verify_2fa.
  destruct (String.eqb_spec (Verify2FACredentials.code body)
              TEST_2FA_CODES.timeout) as [Ht | Ht]; simpl.
  { split; [done | by intros [? _]]. }
  destruct (tempTokenStore !! Verify2FACredentials.tempToken body)
    as [tokenData |] eqn:Hlook; simpl.
  2: { split; [by auto | done]. }
  destruct (String.eqb_spec (Verify2FACredentials.code body)
              TEST_2FA_CODES.expired) as [He | He]; simpl.
  { split; [| done]. intros _. split; [done |]. right. by rewrite He. }
  destruct (String.eqb_spec (Verify2FACredentials.code body)
              TEST_2FA_CODES.valid) as [Hv | Hv]; simpl.
  - split; [done |]. intros [_ [? | ?]]; done.
  - split; [by auto | done].
Qed.

(** C6. For every verify call that fails (the calls [verify_2fa_fails_iff]
    describes; the first part repeats it): an absent token is answered
    401 [2fa_expired]; the expired code "000000" against a live token is
    answered 401 [2fa_expired]; any other code different from the valid
    code "123456" against a live token is answered 401 [invalid_2fa_code];
    and in each of these cases the store is unchanged. The store changes
    only when the verification succeeds. *)
Theorem verify_failures_leave_store_unchanged
    tempTokenStore (body : Verify2FACredentials.t) :
  let reply := verify_2fa tempTokenStore body in
  let tempToken := Verify2FACredentials.tempToken body in
  let code := Verify2FACredentials.code body in
  (is_failure (response reply) = true
   ↔ code ≠ "999999" ∧ (tempTokenStore !! tempToken = None ∨ code ≠ "123456"))
  ∧ (is_failure (response reply) = true →
     store reply = tempTokenStore
     ∧ (tempTokenStore !! tempToken = None →
          response reply
            = json (ApiErrorBody
                {| ApiError.error := "2fa_expired";
                   ApiError.message :=
                     "2FA session has expired. Please login again." |}) 401)
     ∧ (is_Some (tempTokenStore !! tempToken) → code = "000000" →
          response reply
            = json (ApiErrorBody
                {| ApiError.error := "2fa_expired";
                   ApiError.message :=
                     "2FA code has expired. Please request a new code." |}) 401)
     ∧ (is_Some (tempTokenStore !! tempToken) → code ≠ "000000" →
          code ≠ "123456" →
          response reply
            = json (ApiErrorBody
                {| ApiError.error := "invalid_2fa_code";
                   ApiError.message :=
                     "Invalid verification code. Please try again." |}) 401))
  ∧ (store reply ≠ tempTokenStore →
       ∃ verified, response reply = json (Verify2FABody verified) 200).
Proof.
  intros reply tempToken code. subst reply tempToken code. split_and!.
  - apply verify_2fa_fails_iff.
  - intros Hfail. apply verify_2fa_fails_iff in Hfail as [Ht Hcase].
    split_and!.
    + unfold verify_2fa. rewrite (eqb_false_of_ne _ _ Ht).
      destruct Hcase as [Hnone | Hv]; [by rewrite Hnone |].
      rewrite (eqb_false_of_ne _ _ Hv).
      repeat (case_match; simpl); done.
    + intros Hnone. by rewrite verify_2fa_absent.
    + intros [tokenData Hlive] He. destruct body as [tok code].
      simpl in *. subst code. by rewrite (verify_2fa_expired _ _ tokenData).
    + intros [tokenData Hlive] He Hv.
      by rewrite (verify_2fa_invalid _ _ tokenData).
  - unfold verify_2fa. repeat (case_match; simpl); try done.
    intros _. by eexists.
Qed.

Lemma verify_failures_leave_store_unchanged_witness :
  let tempTokenStore : gmap string TokenData :=
    {[ "temp-token-1700000000000"%string :=
         {| email := "test@example.com"; createdAt := 1700000000001 |} ]} in
  let reply :=
    verify_2fa tempTokenStore
      {| Verify2FACredentials.tempToken := "temp-token-1700000000000";
         Verify2FACredentials.code := "654321" |} in
  store reply = tempTokenStore
  ∧ response reply
      = json (ApiErrorBody
          {| ApiError.error := "invalid_2fa_code";
             ApiError.message :=
               "Invalid verification code. Please try again." |}) 401.
Proof.
  intros tempTokenStore reply.
  destruct (proj1 (proj2 (verify_failures_leave_store_unchanged tempTokenStore
              {| Verify2FACredentials.tempToken := "temp-token-1700000000000";
                 Verify2FACredentials.code := "654321" |})) eq_refl)
    as (Hstore & _ & _ & Hinvalid).
  split; [exact Hstore |].
  apply Hinvalid; [by eexists | discriminate | discriminate].
Defined.

End HandlersFacts.

(** ** The client's catch blocks *)

Section AuthFacts.

Import Auth Vocabulary.

Lemma is_ECONNABORTED_true code :
  is_ECONNABORTED code = true ↔ code = Some "ECONNABORTED"%string.
Proof.
  destruct code as [c |]; simpl; [| done].
  destruct (String.eqb_spec c "ECONNABORTED"); split; congruence.
Qed.

(** The two catch blocks are the same function of the thrown value. *)
Lemma verify2FA_rejected_eq error :
  ∃ outcome,
    login (Rejected error) = inr outcome
    ∧ verify2FA (Rejected error) = inr outcome.
Proof.
  destruct error as [[code [r |]] | d]; simpl; [by eexists | | by eexists].
  destruct (is_ECONNABORTED code); by eexists.
Qed.

(** C3. For every failure that carries no HTTP response, [login] and
    [verify2FA] throw an outcome with status 0; when the failure is an
    Axios error, its code is [timeout_error] if the Axios code is
    ECONNABORTED (a deadline abort) and [network_error] for any other
    Axios code or none. *)
Theorem no_response_is_timeout_or_network (error : Thrown) :
  received_response error = None →
  ∃ outcome : ApiErrorResponse.t,
    login (Rejected error) = inr outcome
    ∧ verify2FA (Rejected error) = inr outcome
    ∧ ApiErrorResponse.status outcome = 0
    ∧ ∀ axiosError, error = ThrownAxios axiosError →
        (AxiosError.code axiosError = Some "ECONNABORTED"%string →
           outcome = timeout_outcome)
        ∧ (AxiosError.code axiosError ≠ Some "ECONNABORTED"%string →
             outcome = network_outcome).
Proof.
  destruct error as [[code r] | d]; simpl.
  - intros ->.
    destruct (is_ECONNABORTED code) eqn:Hcode.
    + exists timeout_outcome. split_and!; [done | done | done |].
      intros ? [= <-]. simpl. split; [done |].
      apply is_ECONNABORTED_true in Hcode. congruence.
    + exists network_outcome. split_and!; [done | done | done |].
      intros ? [= <-]. simpl. split; [| done].
      intros Hc. apply is_ECONNABORTED_true in Hc. congruence.
  - intros _. exists unknown_outcome. split_and!; [done | done | done |].
    intros ? [=].
Qed.

Lemma no_response_is_timeout_or_network_witness :
  login (Rejected (ThrownAxios
    {| AxiosError.code := Some "ECONNABORTED"%string;
       AxiosError.response := None |})) = inr timeout_outcome
  ∧ verify2FA (Rejected (ThrownAxios
      {| AxiosError.code := Some "ERR_NETWORK"%string;
         AxiosError.response := None |})) = inr network_outcome.
Proof.
  split.
  - destruct (no_response_is_timeout_or_network
                (ThrownAxios {| AxiosError.code := Some "ECONNABORTED"%string;
                                AxiosError.response := None |}) eq_refl)
      as (outcome & Hlogin & _ & _ & Hcode).
    destruct (Hcode _ eq_refl) as [Htimeout _].
    rewrite <- (Htimeout eq_refl). exact Hlogin.
  - reflexivity.
Defined.

(** On bodies of the declared type: whatever is thrown, [login] and
    [verify2FA] throw one and the same outcome. A received response is
    passed through with its HTTP status and its body unchanged, whatever
    the body's error code; an Axios error without a response becomes
    [timeout_error] or [network_error] with status 0; only a failure that
    is no Axios error becomes [unknown_error] with status 0. *)
Theorem classification_total_and_passes_responses_through (error : Thrown) :
  ∃ outcome : ApiErrorResponse.t,
    login (Rejected error) = inr outcome
    ∧ verify2FA (Rejected error) = inr outcome
    ∧ match error with
      | ThrownAxios axiosError =>
        match AxiosError.response axiosError with
        | Some response =>
          outcome = {| ApiErrorResponse.status := AxiosResponse.status response;
                       ApiErrorResponse.data := AxiosResponse.data response |}
        | None =>
          outcome = timeout_outcome ∨ outcome = network_outcome
        end
      | ThrownOther _ => outcome = unknown_outcome
      end.
Proof.
  destruct error as [[code [r |]] | d]; simpl.
  - by eexists.
  - destruct (is_ECONNABORTED code); eexists; split_and!; eauto.
  - by eexists.
Qed.

(** C4, as stated, fails on a response whose body is not one of the five
    explicit codes: a 502 with the error code "bad_gateway" is passed
    through as 502 "bad_gateway", not as [unknown_error] with status 0. *)
Lemma unexpected_body_is_not_unknown_error :
  let body :=
    {| ApiError.error := "bad_gateway"; ApiError.message := "" |} in
  let error :=
    ThrownAxios
      {| AxiosError.code := Some "ERR_BAD_RESPONSE"%string;
         AxiosError.response :=
           Some {| AxiosResponse.status := 502;
                   AxiosResponse.data := body |} |} in
  (ApiError.error body ∉ explicit_error_codes)
  ∧ login (Rejected error)
      = inr {| ApiErrorResponse.status := 502;
               ApiErrorResponse.data := body |}
  ∧ verify2FA (Rejected error)
      = inr {| ApiErrorResponse.status := 502;
               ApiErrorResponse.data := body |}
  ∧ login (Rejected error) ≠ inr unknown_outcome
  ∧ verify2FA (Rejected error) ≠ inr unknown_outcome.
Proof.
  simpl. split_and!; try done.
  unfold explicit_error_codes.
  repeat (apply not_elem_of_cons; split; [discriminate |]).
  apply not_elem_of_nil.
Qed.

(** [saveToken] then [isAuthenticated]. *)
Lemma isAuthenticated_saveToken token localStorage :
  isAuthenticated (saveToken token localStorage) = truthy token.
Proof.
  unfold isAuthenticated, getToken, saveToken.
  by rewrite lookup_insert_eq.
Qed.

Lemma truthy_true (s : string) : truthy s = true ↔ s ≠ ""%string.
Proof.
  unfold truthy. destruct (String.eqb_spec s ""); split; simpl; congruence.
Qed.

End AuthFacts.

(** ** The catch blocks at run time *)

Section AuthRuntimeFacts.

Import Vocabulary.

Lemma as_ApiError_of_ApiError (e : ApiError.t) :
  as_ApiError (Json_of_ApiError e) = Some e.
Proof. by destruct e. Qed.

(** On errors of the declared type the run-time functions throw what
    [Auth.login] and [Auth.verify2FA] throw. *)
Lemma runtime_agrees_on_declared_bodies
    (error : Auth.Thrown) (outcome : ApiErrorResponse.t) :
  (Auth.login (Auth.Rejected error) = inr outcome →
   AuthRuntime.login (AuthRuntime.Rejected (runtime_of_thrown error))
   = inr (runtime_of_outcome outcome))
  ∧ (Auth.verify2FA (Auth.Rejected error) = inr outcome →
     AuthRuntime.verify2FA (AuthRuntime.Rejected (runtime_of_thrown error))
     = inr (runtime_of_outcome outcome)).
Proof.
  destruct error as [[code [r |]] | d]; simpl.
  - split; by intros [= <-].
  - destruct (Auth.is_ECONNABORTED code); split; by intros [= <-].
  - split; by intros [= <-].
Qed.

(** C4, as the code has it. Whatever is thrown inside the [try], [login]
    and [verify2FA] throw exactly one object [{ status, data }], the same
    in both, and never the raw error. A received response is passed
    through with its HTTP status and its body unchanged, whatever the body
    is, so a body carrying one of the five explicit codes keeps its code
    and its status; an Axios error without a response becomes
    [timeout_error] or [network_error] with status 0; only a failure that
    is no Axios error becomes [unknown_error] with status 0. The thrown
    object is a FailureOutcome exactly when no response was received or
    the received body is itself a well-formed [{ error, message }]. *)
Theorem classification_passes_any_body_through (error : AuthRuntime.Thrown) :
  ∃ thrown : AuthRuntime.ThrownObject.t,
    AuthRuntime.login (AuthRuntime.Rejected error) = inr thrown
    ∧ AuthRuntime.verify2FA (AuthRuntime.Rejected error) = inr thrown
    ∧ match error with
      | AuthRuntime.ThrownAxios axiosError =>
        match AuthRuntime.AxiosError.response axiosError with
        | Some response =>
          thrown
          = {| AuthRuntime.ThrownObject.status :=
                 AuthRuntime.AxiosResponse.status response;
               AuthRuntime.ThrownObject.data :=
                 AuthRuntime.AxiosResponse.data response |}
        | None =>
          thrown = runtime_of_outcome timeout_outcome
          ∨ thrown = runtime_of_outcome network_outcome
        end
      | AuthRuntime.ThrownOther _ =>
        thrown = runtime_of_outcome unknown_outcome
      end
    ∧ (∀ response e,
         runtime_received_response error = Some response →
         as_ApiError (AuthRuntime.AxiosResponse.data response) = Some e →
         ApiError.error e ∈ explicit_error_codes →
         AuthRuntime.ThrownObject.status thrown
           = AuthRuntime.AxiosResponse.status response
         ∧ as_ApiError (AuthRuntime.ThrownObject.data thrown) = Some e)
    ∧ (is_FailureOutcome thrown
       ↔ ∀ response,
           runtime_received_response error = Some response →
           is_Some (as_ApiError (AuthRuntime.AxiosResponse.data response))).
Proof.
  unfold is_FailureOutcome.
  destruct error as [[code [r |]] | d]; simpl.
  - eexists. split_and!; try done; simpl.
    + by intros response e [= <-] He _.
    + split; [by intros H response [= <-] | by intros H; apply H].
  - destruct (Auth.is_ECONNABORTED code); eexists.
    + split_and!; [done | done | by left | done |].
      simpl. split; [done | by intros _; eexists].
    + split_and!; [done | done | by right | done |].
      simpl. split; [done | by intros _; eexists].
  - eexists. split_and!; [done | done | done | done |].
    simpl. split; [done | by intros _; eexists].
Qed.

(** A received response whose body is [null] is thrown as it is, with its
    status: the thrown object carries no error code and no message. *)
Lemma null_body_is_thrown_as_it_is :
  let error :=
    AuthRuntime.ThrownAxios
      {| AuthRuntime.AxiosError.code := Some "ERR_BAD_RESPONSE"%string;
         AuthRuntime.AxiosError.response :=
           Some {| AuthRuntime.AxiosResponse.status := 500;
                   AuthRuntime.AxiosResponse.data := JNull |} |} in
  let thrown :=
    {| AuthRuntime.ThrownObject.status := 500;
       AuthRuntime.ThrownObject.data := JNull |} in
  AuthRuntime.login (AuthRuntime.Rejected error) = inr thrown
  ∧ AuthRuntime.verify2FA (AuthRuntime.Rejected error) = inr thrown
  ∧ ¬ is_FailureOutcome thrown.
Proof.
  simpl. split_and!; [done | done |].
  unfold is_FailureOutcome. simpl. by intros [e He].
Qed.

End AuthRuntimeFacts.

(** ** The forms' messages *)

Section MessageFacts.

Import Vocabulary.

(** C8, as the code has it. For every row of the message table and
    whatever message the body carries, the form of the operation that can
    fail with the row's code renders exactly the row's message: the login
    form for [invalid_credentials], [user_not_found] and [server_error],
    the 2FA form for [invalid_2fa_code] and [2fa_expired], both forms for
    [timeout_error] and [network_error]. *)
Theorem forms_render_the_message_table
    (code : string) (status : Z) (text : string) (message : string) :
  (code, status, text) ∈ message_table →
  let failure :=
    {| ApiErrorResponse.status := status;
       ApiErrorResponse.data :=
         {| ApiError.error := code; ApiError.message := message |} |} in
  (code ∈ login_failure_codes → AuthForm.getErrorMessage failure = text)
  ∧ (code ∈ verify_failure_codes →
       TwoFactorForm.getErrorMessage failure = text).
Proof.
  unfold message_table, login_failure_codes, verify_failure_codes.
  intros Hrow. simpl.
  repeat (apply elem_of_cons in Hrow as [[= -> -> ->] | Hrow];
          [ split; intros Hin; first [ reflexivity | absurd_member Hin ] |]).
  by apply elem_of_nil in Hrow.
Qed.

Lemma forms_render_the_message_table_witness :
  AuthForm.getErrorMessage
    {| ApiErrorResponse.status := 401;
       ApiErrorResponse.data :=
         {| ApiError.error := "invalid_credentials";
            ApiError.message := "Email or password is incorrect" |} |}
  = "Incorrect email or password."%string.
Proof.
  apply (forms_render_the_message_table
           "invalid_credentials" 401 "Incorrect email or password."
           "Email or password is incorrect").
  - unfold message_table. apply elem_of_cons. by left.
  - unfold login_failure_codes. apply elem_of_cons. by left.
Defined.

(** C8, as stated, fails: the login form answers every 401 with the
    credentials message and so renders [2fa_expired]/401 otherwise than the
    table, and the 2FA form renders [invalid_credentials]/401 with the
    body's own message. *)
Lemma login_form_misrenders_2fa_expired :
  (("2fa_expired", 401, "Verification session expired. Please login again.")%string
     ∈ message_table)
  ∧ AuthForm.getErrorMessage
      {| ApiErrorResponse.status := 401;
         ApiErrorResponse.data :=
           {| ApiError.error := "2fa_expired";
              ApiError.message :=
                "2FA session has expired. Please login again." |} |}
    = "Incorrect email or password."%string
  ∧ "Incorrect email or password."%string
    ≠ "Verification session expired. Please login again."%string
  ∧ TwoFactorForm.getErrorMessage
      {| ApiErrorResponse.status := 401;
         ApiErrorResponse.data :=
           {| ApiError.error := "invalid_credentials";
              ApiError.message := "Email or password is incorrect" |} |}
    = "Email or password is incorrect"%string.
Proof.
  split_and!; [| reflexivity | discriminate | reflexivity].
  unfold message_table. do 4 (apply elem_of_cons; right). apply elem_of_cons. by left.
Qed.

End MessageFacts.

(** ** The stored token and the flow controller *)

Section FlowFacts.

Import Flow Vocabulary.

Implicit Types (world : gmap string string * LoginPage.State).

Lemma run_snoc world trace ev :
  run world (trace ++ [ev]) = step (run world trace) ev.
Proof. unfold run. by rewrite foldl_app. Qed.

Lemma step_keeps_unauthenticated world ev :
  stores_no_token ev →
  Auth.isAuthenticated world.1 = false →
  Auth.isAuthenticated (step world ev).1 = false.
Proof.
  destruct ev as [[data | e] | [data | e] | |]; simpl; try done.
  intros -> _. by rewrite isAuthenticated_saveToken.
Qed.

Lemma run_keeps_unauthenticated trace world :
  Forall stores_no_token trace →
  Auth.isAuthenticated world.1 = false →
  Auth.isAuthenticated (run world trace).1 = false.
Proof.
  induction trace as [| ev trace IH] using rev_ind; [done |].
  rewrite Forall_app, Forall_singleton. intros [Htrace Hev] Hworld.
  rewrite run_snoc. apply step_keeps_unauthenticated; [exact Hev |].
  by apply IH.
Qed.

(** C9. [isAuthenticated()] is true exactly when the stored [auth_token]
    is a non-empty string. After a successful login of the simulated
    backend, whose empty [token] the login form saves, it is false, and it
    stays false over any further events that store no terminal token; once
    a successful verify of the backend has been saved it is true. *)
Theorem isAuthenticated_iff_nonempty_token :
  (∀ localStorage : gmap string string,
     Auth.isAuthenticated localStorage = true
     ↔ ∃ token : string,
         Auth.getToken localStorage = Some token ∧ token ≠ ""%string)
  ∧ (∀ (tempTokenStore : gmap string Handlers.TokenData)
       (body : LoginCredentials.t) (now_token now_created : Z)
       (r : LoginResponse.t) (status : Z) world (trace : list Event),
       Handlers.response
         (Handlers.login tempTokenStore body now_token now_created)
         = Handlers.json (Handlers.LoginBody r) status →
       Forall stores_no_token trace →
       Auth.getToken (AuthForm.onSuccess r world).1 = Some ""%string
       ∧ Auth.isAuthenticated (AuthForm.onSuccess r world).1 = false
       ∧ Auth.isAuthenticated (run (AuthForm.onSuccess r world) trace).1
           = false)
  ∧ (∀ (tempTokenStore : gmap string Handlers.TokenData)
       (body : Verify2FACredentials.t)
       (verified : Verify2FAResponse.t) (status : Z) world,
       Handlers.response (Handlers.verify_2fa tempTokenStore body)
         = Handlers.json (Handlers.Verify2FABody verified) status →
       Auth.isAuthenticated (TwoFactorForm.onSuccess verified world).1
         = true).
Proof.
  split_and!.
  - intros localStorage. unfold Auth.isAuthenticated.
    destruct (Auth.getToken localStorage) as [token |]; simpl.
    + rewrite truthy_true. split; [by eauto |]. by intros (? & [= <-] & ?).
    + split; [done |]. by intros (? & ? & ?).
  - intros tempTokenStore body now_token now_created r status world trace
      Hlogin Htrace.
    destruct (login_success_inv _ _ _ _ _ _ Hlogin) as (_ & Htoken & _).
    assert (Auth.isAuthenticated (AuthForm.onSuccess r world).1 = false)
      as Hfalse.
    { simpl. by rewrite isAuthenticated_saveToken, Htoken. }
    split_and!; [| done | by apply run_keeps_unauthenticated].
    simpl. rewrite Htoken. apply lookup_insert_eq.
  - intros tempTokenStore body verified status world. simpl.
    rewrite isAuthenticated_saveToken. unfold Handlers.verify_2fa.
    repeat (case_match; simpl); intros [= <- <-]; done.
Qed.

Lemma isAuthenticated_iff_nonempty_token_witness :
  Auth.isAuthenticated
    (run (AuthForm.onSuccess
            {| LoginResponse.token := "";
               LoginResponse.user :=
                 {| User.id := 1; User.email := "test@example.com" |};
               LoginResponse.requires2FA := true;
               LoginResponse.tempToken := Some "temp-token-1700000000000"%string |}
            (∅, LoginPage.initial))
         [ Verify2FASettled
             (inr {| ApiErrorResponse.status := 401;
                     ApiErrorResponse.data :=
                       {| ApiError.error := "invalid_2fa_code";
                          ApiError.message :=
                            "Invalid verification code. Please try again." |} |});
           Back ]).1
  = false.
Proof.
  apply (proj1 (proj2 isAuthenticated_iff_nonempty_token) ∅
           {| LoginCredentials.email := "test@example.com";
              LoginCredentials.password := "password123" |}
           1700000000000 1700000000001 _ 200 (∅, LoginPage.initial)).
  - reflexivity.
  - repeat constructor.
Defined.

(** Every success of the simulated login sends the page to the code
    screen: it is never a direct login. *)
Lemma backend_login_asks_for_code
    (tempTokenStore : gmap string Handlers.TokenData)
    (body : LoginCredentials.t) (now_token now_created : Z)
    (r : LoginResponse.t) (status : Z) :
  Handlers.response (Handlers.login tempTokenStore body now_token now_created)
    = Handlers.json (Handlers.LoginBody r) status →
  is_direct_login (LoginSettled (inl r)) = false.
Proof.
  intros Hlogin.
  destruct (login_success_inv _ _ _ _ _ _ Hlogin)
    as (_ & _ & H2fa & Htok & _).
  unfold is_direct_login, asks_for_code, truthy_opt.
  by rewrite H2fa, Htok, temp_token_truthy.
Qed.

Lemma render_Authenticated (st : LoginPage.State) :
  LoginPage.render st = LoginPage.Authenticated
  ↔ LoginPage.isFullyAuthenticated st = true.
Proof.
  unfold LoginPage.render.
  destruct (LoginPage.isFullyAuthenticated st),
    (LoginPage.twoFactorState st); split; congruence.
Qed.

(** One event sets [isFullyAuthenticated] only if it is a successful
    verify or a direct login. *)
Lemma step_authenticated_inv world ev :
  LoginPage.isFullyAuthenticated (step world ev).2 = true →
  LoginPage.isFullyAuthenticated world.2 = true
  ∨ is_verify_success ev = true
  ∨ is_direct_login ev = true.
Proof.
  destruct ev as [[data | e] | [data | e] | |]; simpl; auto.
  unfold LoginPage.handleLoginSuccess, asks_for_code.
  destruct (LoginResponse.requires2FA data
            && truthy_opt (LoginResponse.tempToken data)); simpl; auto.
Qed.

Lemma run_authenticated_inv trace world :
  LoginPage.isFullyAuthenticated (run world trace).2 = true →
  LoginPage.isFullyAuthenticated world.2 = true
  ∨ Exists (λ ev, is_verify_success ev = true ∨ is_direct_login ev = true)
      trace.
Proof.
  induction trace as [| ev trace IH] using rev_ind; [by left |].
  rewrite run_snoc. intros Hauth.
  rewrite Exists_app, Exists_cons.
  apply step_authenticated_inv in Hauth as [Hbefore | Hev].
  - destruct (IH Hbefore); auto.
  - auto.
Qed.

(** C2, as the code has it. Starting from [AwaitingCredentials], over any
    sequence of settled login and verify requests, "back" and "sign out",
    in which every successful login response asks for a code
    ([requires2FA] true and a non-empty [tempToken], as every success of
    the simulated backend has), the page shows [Authenticated] only if a
    successful verify response was processed. *)
Theorem authenticated_only_after_successful_verify
    (localStorage : gmap string string) (trace : list Event) :
  Forall (λ ev, is_direct_login ev = false) trace →
  LoginPage.render (run (localStorage, LoginPage.initial) trace).2
    = LoginPage.Authenticated →
  Exists (λ ev, is_verify_success ev = true) trace.
Proof.
  intros Hno_direct Hauth%render_Authenticated.
  apply run_authenticated_inv in Hauth as [[=] | Hsome].
  rewrite Exists_exists in Hsome. destruct Hsome as (ev & Hin & [Hv | Hd]).
  - apply Exists_exists. by exists ev.
  - rewrite Forall_forall in Hno_direct. specialize (Hno_direct ev Hin).
    congruence.
Qed.

Lemma authenticated_only_after_successful_verify_witness :
  Exists (λ ev, is_verify_success ev = true)
    [ LoginSettled
        (inl {| LoginResponse.token := "";
                LoginResponse.user :=
                  {| User.id := 1; User.email := "test@example.com" |};
                LoginResponse.requires2FA := true;
                LoginResponse.tempToken :=
                  Some "temp-token-1700000000000"%string |});
      Verify2FASettled
        (inl {| Verify2FAResponse.token := "fake-jwt-token-after-2fa";
                Verify2FAResponse.user :=
                  {| User.id := 1; User.email := "test@example.com" |} |}) ].
Proof.
  apply (authenticated_only_after_successful_verify ∅).
  - repeat constructor.
  - reflexivity.
Defined.

(** C2, as stated, fails: a successful login response with
    [requires2FA = false] takes the page from [AwaitingCredentials]
    straight to [Authenticated], with no verify response processed. *)
Lemma direct_login_reaches_Authenticated :
  let trace :=
    [ LoginSettled
        (inl {| LoginResponse.token := "jwt";
                LoginResponse.user :=
                  {| User.id := 1; User.email := "test@example.com" |};
                LoginResponse.requires2FA := false;
                LoginResponse.tempToken := None |}) ] in
  LoginPage.render LoginPage.initial = LoginPage.AwaitingCredentials
  ∧ LoginPage.render (run (∅, LoginPage.initial) trace).2
      = LoginPage.Authenticated
  ∧ ¬ Exists (λ ev, is_verify_success ev = true) trace.
Proof.
  simpl. split_and!; [reflexivity | reflexivity |].
  rewrite Exists_cons, Exists_nil. simpl. by intros [? | ?].
Qed.

End FlowFacts.

(** * Further properties of the code *)

(** ** The session store under login and verify *)

Section StoreFacts.

Import Handlers Vocabulary.

Implicit Types (tempTokenStore : gmap string TokenData).

Ltac eqb_cases :=
  repeat match goal with
         | |- context [String.eqb ?a ?b] =>
           destruct (String.eqb_spec a b); simpl
         end.

Ltac unfold_test_data :=
  cbv [TEST_USERS.valid.email TEST_USERS.valid.password
       TEST_USERS.notFound.email TEST_USERS.serverError.email
       TEST_USERS.slowResponse.email TEST_USERS.timeout.email
       TEST_USERS.offline.email TEST_2FA_CODES.valid TEST_2FA_CODES.expired
       TEST_2FA_CODES.timeout] in *.

(** X1. The login handler succeeds exactly for the slow e-mail, with any
    password, and for the valid e-mail with the valid password. *)
Theorem login_succeeds_iff
    tempTokenStore (body : LoginCredentials.t) (now_token now_created : Z) :
  (∃ r status,
     response (login tempTokenStore body now_token now_created)
       = json (LoginBody r) status)
  ↔ LoginCredentials.email body = "slow@example.com"
    ∨ (LoginCredentials.email body = "test@example.com"
       ∧ LoginCredentials.password body = "password123").
Proof.
  unfold login. eqb_cases; unfold_test_data.
  all: split; [ intros (? & ? & ?) | intros Hor ].
  all: try by (left + right).
  all: try by eexists _, _.
  all: try discriminate.
  all: destruct Hor as [? | [? ?]]; congruence.
Qed.

(** X2. The verify handler succeeds exactly when the code is "123456" and the
    token is in the store. *)
Theorem verify_2fa_succeeds_iff
    tempTokenStore (body : Verify2FACredentials.t) :
  (∃ verified status,
     response (verify_2fa tempTokenStore body)
       = json (Verify2FABody verified) status)
  ↔ Verify2FACredentials.code body = "123456"
    ∧ is_Some (tempTokenStore !! Verify2FACredentials.tempToken body).
Proof.
  unfold verify_2fa.
  destruct (tempTokenStore !! Verify2FACredentials.tempToken body)
    as [tokenData |]; eqb_cases; unfold_test_data.
  all: split; [ intros (? & ? & ?) | intros [Hcode Hsome] ].
  all: try discriminate.
  all: try congruence.
  all: try (by destruct Hsome).
  all: try (split; [done | by eexists]).
  by eexists _, _.
Qed.

(** X3. A login touches at most the key of the token it issues: every other
    PendingSession stays as it was, no PendingSession is ever removed, and
    a login that does not succeed leaves the store unchanged. *)
Theorem login_store_frame
    tempTokenStore (body : LoginCredentials.t) (now_token now_created : Z) :
  let after := store (login tempTokenStore body now_token now_created) in
  (∀ k, k ≠ temp_token now_token → after !! k = tempTokenStore !! k)
  ∧ (∀ k, is_Some (tempTokenStore !! k) → is_Some (after !! k))
  ∧ ((∀ r status,
        response (login tempTokenStore body now_token now_created)
          ≠ json (LoginBody r) status) →
     after = tempTokenStore).
Proof.
  unfold login. simpl.
  repeat (case_match; simpl); split_and!; try done;
    try (intros k Hk; by rewrite lookup_insert_ne);
    try (intros k Hk; rewrite lookup_insert; by case_decide);
    intros Hnot; by edestruct Hnot.
Qed.

(** X4. Verifying one token never alters another PendingSession. *)
Theorem verify_2fa_store_frame
    tempTokenStore (body : Verify2FACredentials.t) (k : string) :
  k ≠ Verify2FACredentials.tempToken body →
  store (verify_2fa tempTokenStore body) !! k = tempTokenStore !! k.
Proof.
  intros Hk. unfold verify_2fa.
  repeat (case_match; simpl); try done.
  by rewrite lookup_delete_ne.
Qed.

Lemma verify_2fa_store_frame_witness :
  store (verify_2fa
           {[ "temp-token-1"%string := {| email := "a"; createdAt := 1 |};
              "temp-token-2"%string := {| email := "b"; createdAt := 2 |} ]}
           {| Verify2FACredentials.tempToken := "temp-token-1";
              Verify2FACredentials.code := "123456" |})
    !! "temp-token-2"%string
  = ({[ "temp-token-1"%string := {| email := "a"; createdAt := 1 |};
        "temp-token-2"%string := {| email := "b"; createdAt := 2 |} ]}
       : gmap string TokenData) !! "temp-token-2"%string.
Proof.
  apply (verify_2fa_store_frame _
           {| Verify2FACredentials.tempToken := "temp-token-1";
              Verify2FACredentials.code := "123456" |}).
  discriminate.
Defined.

Lemma temp_token_inj (a b : Z) : temp_token a = temp_token b → a = b.
Proof.
  unfold temp_token. intros H.
  apply (inj pretty). by simplify_eq/=.
Qed.

(** X5. Two successful logins whose clock readings differ hold two separate
    PendingSessions: after both, each token is stored with the e-mail of
    its own login. *)
Theorem logins_at_distinct_times_are_isolated
    tempTokenStore (body1 body2 : LoginCredentials.t)
    (now1 created1 now2 created2 : Z) (r1 r2 : LoginResponse.t)
    (status1 status2 : Z) :
  let first := login tempTokenStore body1 now1 created1 in
  let second := login (store first) body2 now2 created2 in
  response first = json (LoginBody r1) status1 →
  response second = json (LoginBody r2) status2 →
  now1 ≠ now2 →
  LoginResponse.tempToken r1 ≠ LoginResponse.tempToken r2
  ∧ store second !! temp_token now1
      = Some {| email := LoginCredentials.email body1; createdAt := created1 |}
  ∧ store second !! temp_token now2
      = Some {| email := LoginCredentials.email body2; createdAt := created2 |}.
Proof.
  intros first second H1 H2 Hne. subst first second.
  destruct (login_success_inv _ _ _ _ _ _ H1) as (_ & _ & _ & Ht1 & _ & Hs1).
  destruct (login_success_inv _ _ _ _ _ _ H2) as (_ & _ & _ & Ht2 & _ & Hs2).
  rewrite Ht1, Ht2, Hs2, Hs1. split_and!.
  - intros Heq. apply Hne, temp_token_inj. congruence.
  - rewrite lookup_insert_ne, lookup_insert_eq; [done |].
    intros Heq. apply Hne, temp_token_inj. congruence.
  - by rewrite lookup_insert_eq.
Qed.

Lemma logins_at_distinct_times_are_isolated_witness :
  let first :=
    login ∅ {| LoginCredentials.email := "test@example.com";
               LoginCredentials.password := "password123" |} 1000 1001 in
  let second :=
    login (store first)
      {| LoginCredentials.email := "slow@example.com";
         LoginCredentials.password := "" |} 4000 4001 in
  store second !! temp_token 1000
    = Some {| email := "test@example.com"; createdAt := 1001 |}
  ∧ store second !! temp_token 4000
      = Some {| email := "slow@example.com"; createdAt := 4001 |}.
Proof.
  intros first second.
  eapply proj2, (logins_at_distinct_times_are_isolated ∅
           {| LoginCredentials.email := "test@example.com";
              LoginCredentials.password := "password123" |}
           {| LoginCredentials.email := "slow@example.com";
              LoginCredentials.password := "" |} 1000 1001 4000 4001).
  - reflexivity.
  - reflexivity.
  - discriminate.
Defined.

(** X6. Two successful logins that read the same clock value are given the
    same token, and the second overwrites the first: the token then
    verifies to the e-mail of the second login. *)
Theorem login_collision_overwrites
    tempTokenStore (body1 body2 : LoginCredentials.t)
    (now created1 created2 : Z) (r1 r2 : LoginResponse.t)
    (status1 status2 : Z) :
  let first := login tempTokenStore body1 now created1 in
  let second := login (store first) body2 now created2 in
  response first = json (LoginBody r1) status1 →
  response second = json (LoginBody r2) status2 →
  LoginResponse.tempToken r1 = LoginResponse.tempToken r2
  ∧ ∃ tempToken,
      LoginResponse.tempToken r1 = Some tempToken
      ∧ response (verify_2fa (store second)
                    {| Verify2FACredentials.tempToken := tempToken;
                       Verify2FACredentials.code := "123456" |})
        = json (Verify2FABody
            {| Verify2FAResponse.token := "fake-jwt-token-after-2fa";
               Verify2FAResponse.user :=
                 {| User.id := 1;
                    User.email := LoginCredentials.email body2 |} |}) 200.
Proof.
  intros first second H1 H2. subst first second.
  destruct (login_success_inv _ _ _ _ _ _ H1) as (_ & _ & _ & Ht1 & _ & Hs1).
  destruct (login_success_inv _ _ _ _ _ _ H2) as (_ & _ & _ & Ht2 & _ & Hs2).
  rewrite Ht1, Ht2. split; [done |].
  exists (temp_token now). split; [done |].
  rewrite Hs2.
  change "123456"%string with TEST_2FA_CODES.valid.
  by rewrite (verify_2fa_valid _ _ _ (lookup_insert_eq _ _ _)).
Qed.

Lemma login_collision_overwrites_witness :
  let first :=
    login ∅ {| LoginCredentials.email := "test@example.com";
               LoginCredentials.password := "password123" |} 1000 1001 in
  let second :=
    login (store first)
      {| LoginCredentials.email := "slow@example.com";
         LoginCredentials.password := "" |} 1000 1002 in
  ∃ tempToken,
    Some (temp_token 1000) = Some tempToken
    ∧ response (verify_2fa (store second)
                  {| Verify2FACredentials.tempToken := tempToken;
                     Verify2FACredentials.code := "123456" |})
      = json (Verify2FABody
          {| Verify2FAResponse.token := "fake-jwt-token-after-2fa";
             Verify2FAResponse.user :=
               {| User.id := 1; User.email := "slow@example.com" |} |}) 200.
Proof.
  intros first second.
  exact (proj2 (login_collision_overwrites ∅
           {| LoginCredentials.email := "test@example.com";
              LoginCredentials.password := "password123" |}
           {| LoginCredentials.email := "slow@example.com";
              LoginCredentials.password := "" |} 1000 1001 1002
           _ _ 200 200 eq_refl eq_refl)).
Defined.

(** X7. Only the two timeout scenarios outlast the client's deadline: a login
    reply is delayed beyond [apiClient]'s timeout exactly for the timeout
    e-mail, a verify reply exactly for the code "999999"; neither touches
    the store. *)
Theorem only_timeout_scenarios_outlast_the_deadline :
  (∀ tempTokenStore (body : LoginCredentials.t) (now_token now_created : Z),
     let reply := login tempTokenStore body now_token now_created in
     (Auth.apiClient_timeout < delayed reply
      ↔ LoginCredentials.email body = "timeout@example.com")
     ∧ (Auth.apiClient_timeout < delayed reply →
        store reply = tempTokenStore))
  ∧ (∀ tempTokenStore (body : Verify2FACredentials.t),
       let reply := verify_2fa tempTokenStore body in
       (Auth.apiClient_timeout < delayed reply
        ↔ Verify2FACredentials.code body = "999999")
       ∧ (Auth.apiClient_timeout < delayed reply →
          store reply = tempTokenStore)).
Proof.
  unfold Auth.apiClient_timeout. split.
  - intros tempTokenStore body now_token now_created. unfold login.
    eqb_cases; unfold_test_data.
    all: split; [split; [intros ? | intros ?] | intros ?].
    all: try done.
    all: try lia.
    all: congruence.
  - intros tempTokenStore body. unfold verify_2fa.
    destruct (tempTokenStore !! Verify2FACredentials.tempToken body)
      as [tokenData |]; eqb_cases; unfold_test_data.
    all: split; [split; [intros ? | intros ?] | intros ?].
    all: try done.
    all: try lia.
    all: congruence.
Qed.

End StoreFacts.

(** ** From a reply of the backend to the message on the screen *)

Section RenderingFacts.

Import Handlers Auth Vocabulary.

Ltac eqb_cases :=
  repeat match goal with
         | |- context [String.eqb ?a ?b] =>
           destruct (String.eqb_spec a b); simpl
         end.

Ltac table_row :=
  unfold message_table;
  repeat (apply elem_of_cons; first [ by left | right ]).

(** X8. Every error body the login handler sends, thrown by [login] as the
    response of an Axios error, is rendered by the login form as the
    message-table row of its code and status. *)
Theorem login_failures_render_by_the_table
    (tempTokenStore : gmap string TokenData) (body : LoginCredentials.t)
    (now_token now_created : Z) (e : ApiError.t) (status : Z)
    (code : option string) :
  response (Handlers.login tempTokenStore body now_token now_created)
    = json (ApiErrorBody e) status →
  ∃ outcome,
    Auth.login (Rejected (ThrownAxios
      {| AxiosError.code := code;
         AxiosError.response :=
           Some {| AxiosResponse.status := status;
                   AxiosResponse.data := e |} |})) = inr outcome
    ∧ (ApiError.error e, status, AuthForm.getErrorMessage outcome)
        ∈ message_table.
Proof.
  unfold Handlers.login. eqb_cases; intros [= <- <-]; eexists; (split; [done |]).
  all: cbn.
  all: table_row.
Qed.

Lemma login_failures_render_by_the_table_witness :
  ∃ outcome,
    Auth.login (Rejected (ThrownAxios
      {| AxiosError.code := Some "ERR_BAD_REQUEST"%string;
         AxiosError.response :=
           Some {| AxiosResponse.status := 401;
                   AxiosResponse.data :=
                     {| ApiError.error := "invalid_credentials";
                        ApiError.message :=
                          "Email or password is incorrect" |} |} |}))
      = inr outcome
    ∧ ("invalid_credentials"%string, 401, AuthForm.getErrorMessage outcome)
        ∈ message_table.
Proof.
  apply (login_failures_render_by_the_table ∅
           {| LoginCredentials.email := "test@example.com";
              LoginCredentials.password := "wrongpassword" |} 1000 1001).
  reflexivity.
Defined.

(** X9. Every error body the verify handler sends, thrown by [verify2FA] as
    the response of an Axios error, is rendered by the 2FA form as the
    message-table row of its code and status, whatever message the body
    itself carried. *)
Theorem verify_failures_render_by_the_table
    (tempTokenStore : gmap string TokenData) (body : Verify2FACredentials.t)
    (e : ApiError.t) (status : Z) (code : option string) :
  response (verify_2fa tempTokenStore body) = json (ApiErrorBody e) status →
  ∃ outcome,
    Auth.verify2FA (Rejected (ThrownAxios
      {| AxiosError.code := code;
         AxiosError.response :=
           Some {| AxiosResponse.status := status;
                   AxiosResponse.data := e |} |})) = inr outcome
    ∧ (ApiError.error e, status, TwoFactorForm.getErrorMessage outcome)
        ∈ message_table.
Proof.
  unfold verify_2fa.
  destruct (tempTokenStore !! Verify2FACredentials.tempToken body);
    eqb_cases; intros [= <- <-]; eexists; (split; [done |]).
  all: cbn.
  all: table_row.
Qed.

Lemma verify_failures_render_by_the_table_witness :
  ∃ outcome,
    Auth.verify2FA (Rejected (ThrownAxios
      {| AxiosError.code := Some "ERR_BAD_REQUEST"%string;
         AxiosError.response :=
           Some {| AxiosResponse.status := 401;
                   AxiosResponse.data :=
                     {| ApiError.error := "2fa_expired";
                        ApiError.message :=
                          "2FA session has expired. Please login again." |} |} |}))
      = inr outcome
    ∧ ("2fa_expired"%string, 401, TwoFactorForm.getErrorMessage outcome)
        ∈ message_table.
Proof.
  apply (verify_failures_render_by_the_table ∅
           {| Verify2FACredentials.tempToken := "temp-token-1";
              Verify2FACredentials.code := "123456" |}).
  reflexivity.
Defined.

(** X10. A failure without a response is rendered alike by both forms: the
    timeout message for an Axios error with code ECONNABORTED, the
    connection message for any other Axios error, and the generic message
    for anything that is no Axios error. *)
Theorem transport_failures_render_alike (error : Thrown) :
  received_response error = None →
  ∃ outcome,
    Auth.login (Rejected error) = inr outcome
    ∧ Auth.verify2FA (Rejected error) = inr outcome
    ∧ AuthForm.getErrorMessage outcome = TwoFactorForm.getErrorMessage outcome
    ∧ AuthForm.getErrorMessage outcome
      = match error with
        | ThrownAxios axiosError =>
          if is_ECONNABORTED (AxiosError.code axiosError)
          then "Request timed out. Please try again."
          else "Connection problem. Please check your network."
        | ThrownOther _ => "An unexpected error occurred. Please try again."
        end%string.
Proof.
  destruct error as [[code r] | d]; simpl.
  - intros ->. destruct (is_ECONNABORTED code); by eexists.
  - intros _. by eexists.
Qed.

Lemma transport_failures_render_alike_witness :
  ∃ outcome,
    Auth.login (Rejected (ThrownOther "TypeError")) = inr outcome
    ∧ Auth.verify2FA (Rejected (ThrownOther "TypeError")) = inr outcome
    ∧ AuthForm.getErrorMessage outcome = TwoFactorForm.getErrorMessage outcome
    ∧ AuthForm.getErrorMessage outcome
      = "An unexpected error occurred. Please try again."%string.
Proof.
  apply (transport_failures_render_alike (ThrownOther "TypeError")).
  reflexivity.
Defined.

(** X11. An outcome with a status other than 0 always stems from a received
    response, whose status and body it repeats. *)
Theorem nonzero_status_stems_from_a_response
    (error : Thrown) (outcome : ApiErrorResponse.t) :
  Auth.login (Rejected error) = inr outcome
  ∨ Auth.verify2FA (Rejected error) = inr outcome →
  ApiErrorResponse.status outcome ≠ 0 →
  ∃ r,
    received_response error = Some r
    ∧ AxiosResponse.status r = ApiErrorResponse.status outcome
    ∧ AxiosResponse.data r = ApiErrorResponse.data outcome.
Proof.
  destruct error as [[code [r |]] | d]; simpl.
  - intros [[= <-] | [= <-]] _; by eexists.
  - destruct (is_ECONNABORTED code); intros [[= <-] | [= <-]]; done.
  - intros [[= <-] | [= <-]]; done.
Qed.

Lemma nonzero_status_stems_from_a_response_witness :
  ∃ r,
    received_response (ThrownAxios
      {| AxiosError.code := None;
         AxiosError.response :=
           Some {| AxiosResponse.status := 404;
                   AxiosResponse.data :=
                     {| ApiError.error := "user_not_found";
                        ApiError.message := "User does not exist" |} |} |})
      = Some r
    ∧ AxiosResponse.status r = 404
    ∧ AxiosResponse.data r
      = {| ApiError.error := "user_not_found";
           ApiError.message := "User does not exist" |}.
Proof.
  apply (nonzero_status_stems_from_a_response
           (ThrownAxios
              {| AxiosError.code := None;
                 AxiosError.response :=
                   Some {| AxiosResponse.status := 404;
                           AxiosResponse.data :=
                             {| ApiError.error := "user_not_found";
                                ApiError.message := "User does not exist" |} |} |})
           {| ApiErrorResponse.status := 404;
              ApiErrorResponse.data :=
                {| ApiError.error := "user_not_found";
                   ApiError.message := "User does not exist" |} |}).
  - by left.
  - discriminate.
Defined.

(** X12. The token helpers over localStorage: a saved token is read back, a
    later save replaces an earlier one, a removed token is gone and
    [isAuthenticated] is then false, and no other key is touched. *)
Theorem token_storage_round_trip
    (token token' : string) (localStorage : gmap string string) :
  getToken (saveToken token localStorage) = Some token
  ∧ saveToken token' (saveToken token localStorage)
    = saveToken token' localStorage
  ∧ getToken (removeToken localStorage) = None
  ∧ isAuthenticated (removeToken localStorage) = false
  ∧ removeToken (saveToken token localStorage) = removeToken localStorage
  ∧ (∀ k, k ≠ "auth_token"%string →
       saveToken token localStorage !! k = localStorage !! k
       ∧ removeToken localStorage !! k = localStorage !! k).
Proof.
  unfold isAuthenticated, getToken, saveToken, removeToken. split_and!.
  - apply lookup_insert_eq.
  - apply insert_insert_eq.
  - apply lookup_delete_eq.
  - by rewrite lookup_delete_eq.
  - apply delete_insert_eq.
  - intros k Hk. by rewrite lookup_insert_ne, lookup_delete_ne.
Qed.

End RenderingFacts.

(** ** The page and the stored token over a whole session *)

Section SessionFacts.

Import Flow Vocabulary.

Implicit Types (world : gmap string string * LoginPage.State).

Lemma last_saved_token_snoc trace ev :
  last_saved_token (trace ++ [ev])
  = match saved_token ev with
    | Some t => Some t
    | None => last_saved_token trace
    end.
Proof. unfold last_saved_token. by rewrite foldl_app. Qed.

(** X13. After any sequence of events, the stored [auth_token] is the token of
    the last successful login or verify response, or the one stored before
    when there was none; no event removes it ("back" and "sign out"
    included) and no other key of localStorage is touched. *)
Theorem stored_token_is_the_last_saved world (trace : list Event) :
  Auth.getToken (run world trace).1
    = match last_saved_token trace with
      | Some t => Some t
      | None => Auth.getToken world.1
      end
  ∧ (is_Some (Auth.getToken world.1) →
     is_Some (Auth.getToken (run world trace).1))
  ∧ (∀ k, k ≠ "auth_token"%string →
       (run world trace).1 !! k = world.1 !! k).
Proof.
  induction trace as [| ev trace IH] using rev_ind; [done |].
  destruct IH as (IHtok & IHsome & IHframe).
  rewrite run_snoc, last_saved_token_snoc.
  unfold Auth.getToken in *.
  destruct ev as [[data | e] | [data | e] | |]; simpl;
    unfold Auth.saveToken; split_and!; try done.
  all: try apply lookup_insert_eq.
  all: try (intros _; rewrite lookup_insert_eq; by eexists).
  all: intros k Hk; rewrite lookup_insert_ne; [by apply IHframe | done].
Qed.

(** X14. Signing out after a verified sign-in shows the login form again, yet
    the access token stays in localStorage and [isAuthenticated()] stays
    true: no path of the flow calls [removeToken]. *)
Theorem sign_out_keeps_the_token
    world (verified : Verify2FAResponse.t) (trace : list Event) :
  Verify2FAResponse.token verified ≠ ""%string →
  Forall (λ ev, saved_token ev = None) trace →
  let final :=
    run (TwoFactorForm.onSuccess verified world) (trace ++ [SignOut]) in
  LoginPage.render final.2 = LoginPage.AwaitingCredentials
  ∧ Auth.getToken final.1 = Some (Verify2FAResponse.token verified)
  ∧ Auth.isAuthenticated final.1 = true.
Proof.
  intros Htoken Htrace final. subst final.
  assert (Auth.getToken
            (run (TwoFactorForm.onSuccess verified world) trace).1
          = Some (Verify2FAResponse.token verified)) as Hstored.
  { induction trace as [| ev trace IH] using rev_ind.
    - simpl. apply lookup_insert_eq.
    - apply Forall_app in Htrace as [Htrace Hev].
      apply Forall_cons in Hev as [Hev _].
      rewrite run_snoc.
      destruct ev as [[data | e] | [data | e] | |]; simpl in *;
        try done; by apply IH. }
  rewrite run_snoc. simpl. split_and!; [done | done |].
  unfold Auth.isAuthenticated. rewrite Hstored. simpl.
  by apply truthy_true.
Qed.

Lemma sign_out_keeps_the_token_witness :
  let final :=
    run (TwoFactorForm.onSuccess
           {| Verify2FAResponse.token := "fake-jwt-token-after-2fa";
              Verify2FAResponse.user :=
                {| User.id := 1; User.email := "test@example.com" |} |}
           (∅, LoginPage.initial))
        ([Back] ++ [SignOut]) in
  LoginPage.render final.2 = LoginPage.AwaitingCredentials
  ∧ Auth.getToken final.1 = Some "fake-jwt-token-after-2fa"%string
  ∧ Auth.isAuthenticated final.1 = true.
Proof.
  apply (sign_out_keeps_the_token (∅, LoginPage.initial)
           {| Verify2FAResponse.token := "fake-jwt-token-after-2fa";
              Verify2FAResponse.user :=
                {| User.id := 1; User.email := "test@example.com" |} |}
           [Back]).
  - discriminate.
  - repeat constructor.
Defined.

(** X15. Once the page shows [Authenticated] it keeps doing so over every
    event but "sign out": later responses and "back" do not undo it. *)
Theorem authenticated_until_sign_out world (trace : list Event) :
  LoginPage.render world.2 = LoginPage.Authenticated →
  Forall (λ ev, ev ≠ SignOut) trace →
  LoginPage.render (run world trace).2 = LoginPage.Authenticated.
Proof.
  intros Hauth Htrace.
  induction trace as [| ev trace IH] using rev_ind; [done |].
  apply Forall_app in Htrace as [Htrace Hev].
  apply Forall_cons in Hev as [Hev _].
  specialize (IH Htrace). apply render_Authenticated in IH.
  rewrite run_snoc. apply render_Authenticated.
  destruct ev as [[data | e] | [data | e] | |]; simpl; try done.
  unfold LoginPage.handleLoginSuccess. by case_match.
Qed.

Lemma authenticated_until_sign_out_witness :
  LoginPage.render
    (run (∅, {| LoginPage.twoFactorState := None;
                LoginPage.isFullyAuthenticated := true |})
         [ Back;
           LoginSettled
             (inl {| LoginResponse.token := "";
                     LoginResponse.user :=
                       {| User.id := 1; User.email := "test@example.com" |};
                     LoginResponse.requires2FA := true;
                     LoginResponse.tempToken := Some "temp-token-7"%string |}) ]).2
  = LoginPage.Authenticated.
Proof.
  apply (authenticated_until_sign_out
           (∅, {| LoginPage.twoFactorState := None;
                  LoginPage.isFullyAuthenticated := true |})).
  - reflexivity.
  - repeat constructor; discriminate.
Defined.

(** X16. Whenever the page holds a [twoFactorState], from the initial state and
    over any events, its token is non-empty and it is the token, with the
    user e-mail, of a successful login response that asked for a code. *)
Theorem code_screen_holds_a_login_token
    (localStorage : gmap string string) (trace : list Event)
    (s : LoginPage.TwoFactorState) :
  LoginPage.twoFactorState (run (localStorage, LoginPage.initial) trace).2
    = Some s →
  LoginPage.tempToken s ≠ ""%string
  ∧ ∃ r,
      LoginSettled (inl r) ∈ trace
      ∧ LoginResponse.requires2FA r = true
      ∧ LoginResponse.tempToken r = Some (LoginPage.tempToken s)
      ∧ User.email (LoginResponse.user r) = LoginPage.userEmail s.
Proof.
  revert s. induction trace as [| ev trace IH] using rev_ind; [done |].
  intros s. rewrite run_snoc.
  assert (∀ s',
    LoginPage.twoFactorState (run (localStorage, LoginPage.initial) trace).2
      = Some s' →
    LoginPage.tempToken s' ≠ ""%string
    ∧ ∃ r, LoginSettled (inl r) ∈ trace ++ [ev]
        ∧ LoginResponse.requires2FA r = true
        ∧ LoginResponse.tempToken r = Some (LoginPage.tempToken s')
        ∧ User.email (LoginResponse.user r) = LoginPage.userEmail s')
    as IH'.
  { intros s' Hs'. destruct (IH s' Hs') as (Hne & r & Hin & Hr).
    split; [done |]. exists r. split; [| done].
    apply elem_of_app. by left. }
  destruct ev as [[data | e] | [data | e] | |]; simpl; try done; try apply IH'.
  unfold LoginPage.handleLoginSuccess.
  destruct (LoginResponse.requires2FA data) eqn:H2fa; simpl; [| apply IH'].
  destruct (LoginResponse.tempToken data) as [tok |] eqn:Htok; simpl;
    [| apply IH'].
  destruct (truthy tok) eqn:Htruthy; simpl; [| apply IH'].
  intros [= <-]. simpl. split; [by apply truthy_true |].
  exists data. split_and!; try done.
  apply elem_of_app. right. apply elem_of_cons. by left.
Qed.

Lemma code_screen_holds_a_login_token_witness :
  "temp-token-7"%string ≠ ""%string
  ∧ ∃ r,
      LoginSettled (inl r)
        ∈ [ LoginSettled
              (inl {| LoginResponse.token := "";
                      LoginResponse.user :=
                        {| User.id := 1; User.email := "test@example.com" |};
                      LoginResponse.requires2FA := true;
                      LoginResponse.tempToken := Some "temp-token-7"%string |}) ]
      ∧ LoginResponse.requires2FA r = true
      ∧ LoginResponse.tempToken r = Some "temp-token-7"%string
      ∧ User.email (LoginResponse.user r) = "test@example.com"%string.
Proof.
  apply (code_screen_holds_a_login_token ∅ _
           {| LoginPage.tempToken := "temp-token-7";
              LoginPage.userEmail := "test@example.com" |}).
  reflexivity.
Defined.

(** X17. The whole sign-in. After any successful login of the backend the page
    shows the code screen with the login's e-mail and a token that is live
    in the store; verifying that token with "123456" succeeds for the same
    e-mail; and once the 2FA form has processed the response the page shows
    [Authenticated] and [isAuthenticated()] is true. *)
Theorem sign_in_end_to_end
    (tempTokenStore : gmap string Handlers.TokenData)
    (body : LoginCredentials.t) (now_token now_created : Z)
    (r : LoginResponse.t) (status : Z) (localStorage : gmap string string) :
  Handlers.response (Handlers.login tempTokenStore body now_token now_created)
    = Handlers.json (Handlers.LoginBody r) status →
  let logged_in := AuthForm.onSuccess r (localStorage, LoginPage.initial) in
  LoginPage.render logged_in.2 = LoginPage.AwaitingCode
  ∧ ∃ s verified,
      LoginPage.twoFactorState logged_in.2 = Some s
      ∧ LoginPage.userEmail s = LoginCredentials.email body
      ∧ Handlers.response
          (Handlers.verify_2fa
             (Handlers.store
                (Handlers.login tempTokenStore body now_token now_created))
             {| Verify2FACredentials.tempToken := LoginPage.tempToken s;
                Verify2FACredentials.code := "123456" |})
        = Handlers.json (Handlers.Verify2FABody verified) 200
      ∧ User.email (Verify2FAResponse.user verified)
        = LoginCredentials.email body
      ∧ let verified_in := TwoFactorForm.onSuccess verified logged_in in
        LoginPage.render verified_in.2 = LoginPage.Authenticated
        ∧ Auth.getToken verified_in.1 = Some "fake-jwt-token-after-2fa"%string
        ∧ Auth.isAuthenticated verified_in.1 = true.
Proof.
  intros Hlogin.
  destruct (login_success_inv _ _ _ _ _ _ Hlogin)
    as (_ & _ & H2fa & Htok & Hemail & Hstore).
  simpl. unfold LoginPage.handleLoginSuccess, truthy_opt.
  rewrite H2fa, Htok, temp_token_truthy, Hstore. simpl.
  split; [done |]. eexists _, _. split; [done |]. simpl.
  split; [done |].
  change "123456"%string with Handlers.TEST_2FA_CODES.valid.
  rewrite (verify_2fa_valid _ _ _ (lookup_insert_eq _ _ _)). simpl.
  split; [done |]. split; [done |].
  split_and!; [done | apply lookup_insert_eq |].
  by rewrite isAuthenticated_saveToken.
Qed.

Lemma sign_in_end_to_end_witness :
  let logged_in :=
    AuthForm.onSuccess
      {| LoginResponse.token := "";
         LoginResponse.user :=
           {| User.id := 1; User.email := "test@example.com" |};
         LoginResponse.requires2FA := true;
         LoginResponse.tempToken := Some "temp-token-1700000000000"%string |}
      (∅, LoginPage.initial) in
  LoginPage.render logged_in.2 = LoginPage.AwaitingCode.
Proof.
  intros logged_in.
  exact (proj1 (sign_in_end_to_end ∅
           {| LoginCredentials.email := "test@example.com";
              LoginCredentials.password := "password123" |}
           1700000000000 1700000000001 _ 200 ∅ eq_refl)).
Defined.

End SessionFacts.

(** ** Regular expressions: the matcher decides [matches] *)

Section RegExpFacts.
Import RegExp.

Lemma matches_Seq_inv r1 r2 s :
  matches (Seq r1 r2) s →
  ∃ s1 s2, s = s1 ++ s2 ∧ matches r1 s1 ∧ matches r2 s2.
Proof. inversion 1; subst; eauto. Qed.

Lemma matches_Alt_inv r1 r2 s :
  matches (Alt r1 r2) s → matches r1 s ∨ matches r2 s.
Proof. inversion 1; subst; eauto. Qed.

Lemma matches_Class_inv p s :
  matches (Class p) s → ∃ c, s = [c] ∧ p c = true.
Proof. inversion 1; subst; eauto. Qed.

Lemma matches_Never_inv s : ¬ matches Never s.
Proof. inversion 1. Qed.

Lemma matches_Empty_inv s : matches Empty s → s = [].
Proof. by inversion 1. Qed.

Lemma nullable_spec r : nullable r = true ↔ matches r [].
Proof.
  induction r as [| | p | r1 IH1 r2 IH2 | r1 IH1 r2 IH2 | r IH]; simpl.
  - split; [done | by intros ?%matches_Never_inv].
  - split; [constructor | done].
  - split; [done | by intros (c & [=] & _)%matches_Class_inv].
  - rewrite andb_true_iff, IH1, IH2. split.
    + intros [H1 H2]. by apply (matches_Seq _ _ [] []).
    + intros (s1 & s2 & Heq & H1 & H2)%matches_Seq_inv.
      symmetry in Heq. apply app_eq_nil in Heq as [-> ->]. done.
  - rewrite orb_true_iff, IH1, IH2. split.
    + intros [H | H]; [by apply matches_Alt_l | by apply matches_Alt_r].
    + apply matches_Alt_inv.
  - split; [constructor | done].
Qed.

Lemma matches_Star_cons r c s :
  matches (Star r) (c :: s) →
  ∃ s1 s2, s = s1 ++ s2 ∧ matches r (c :: s1) ∧ matches (Star r) s2.
Proof.
  intros H. remember (Star r) as r' eqn:Hr. remember (c :: s) as cs eqn:Hcs.
  revert s Hcs.
  induction H as [| | | | | | r0 s1 s2 H1 _ H2 IH2]; try done.
  injection Hr as ->. intros s Hcs.
  destruct s1 as [| c1 s1]; simpl in Hcs.
  - by apply IH2.
  - injection Hcs as -> <-. by exists s1, s2.
Qed.

Lemma derive_spec c r s : matches (derive c r) s ↔ matches r (c :: s).
Proof.
  revert s.
  induction r as [| | p | r1 IH1 r2 IH2 | r1 IH1 r2 IH2 | r IH];
    intros s; simpl.
  - split; by intros ?%matches_Never_inv.
  - split; [by intros ?%matches_Never_inv | by intros [=]%matches_Empty_inv].
  - destruct (p c) eqn:Hp; split.
    + intros ->%matches_Empty_inv. by constructor.
    + intros (c' & [= -> ->] & _)%matches_Class_inv. constructor.
    + by intros ?%matches_Never_inv.
    + intros (c' & [= -> ->] & ?)%matches_Class_inv. congruence.
  - assert (matches (Seq (derive c r1) r2) s
            ↔ ∃ s1 s2, s = s1 ++ s2 ∧ matches r1 (c :: s1) ∧ matches r2 s2)
      as Hseq.
    { split.
      - intros (s1 & s2 & -> & H1 & H2)%matches_Seq_inv.
        exists s1, s2. by rewrite <- IH1.
      - intros (s1 & s2 & -> & H1 & H2). constructor; [by apply IH1 | done]. }
    split.
    + intros H.
      assert (matches (Seq (derive c r1) r2) s
              ∨ (nullable r1 = true ∧ matches (derive c r2) s))
        as [H' | [Hn H']].
      { destruct (nullable r1); [| by left].
        apply matches_Alt_inv in H as [H | H]; [by left | by right]. }
      * apply Hseq in H' as (s1 & s2 & -> & H1 & H2).
        by apply (matches_Seq _ _ (c :: s1) s2).
      * apply (matches_Seq _ _ [] (c :: s)); [by apply nullable_spec |].
        by apply IH2.
    + intros (s1 & s2 & Heq & H1 & H2)%matches_Seq_inv.
      destruct s1 as [| c1 s1]; simpl in Heq.
      * subst s2. apply nullable_spec in H1. rewrite H1.
        apply matches_Alt_r. by apply IH2.
      * injection Heq as <- ->.
        assert (matches (Seq (derive c r1) r2) (s1 ++ s2)) as H'.
        { apply Hseq. by exists s1, s2. }
        destruct (nullable r1); [by apply matches_Alt_l | done].
  - split.
    + intros [H | H]%matches_Alt_inv;
        [apply matches_Alt_l; by apply IH1 | apply matches_Alt_r; by apply IH2].
    + intros [H | H]%matches_Alt_inv;
        [apply matches_Alt_l; by apply IH1 | apply matches_Alt_r; by apply IH2].
  - split.
    + intros (s1 & s2 & -> & H1 & H2)%matches_Seq_inv.
      apply (matches_Star_app _ (c :: s1) s2); [by apply IH | done].
    + intros (s1 & s2 & -> & H1 & H2)%matches_Star_cons.
      constructor; [by apply IH | done].
Qed.

Lemma test_spec r s : test r s = true ↔ matches r (String.list_ascii_of_string s).
Proof.
  revert r. induction s as [| c s IH]; intros r; simpl.
  - apply nullable_spec.
  - rewrite IH. apply derive_spec.
Qed.

(** One or more characters of a class. *)
Lemma matches_Star_Class p s :
  matches (Star (Class p)) s ↔ Forall (λ c, p c = true) s.
Proof.
  split.
  - intros H. remember (Star (Class p)) as r eqn:Hr.
    induction H as [| | | | | | r0 s1 s2 H1 _ H2 IH2]; try done.
    injection Hr as ->.
    apply matches_Class_inv in H1 as (c & -> & Hc).
    constructor; [done | by apply IH2].
  - induction 1 as [| c s Hc _ IH]; [constructor |].
    apply (matches_Star_app _ [c] s); [by constructor | done].
Qed.

Lemma matches_Plus_Class p s :
  matches (Plus (Class p)) s ↔ s ≠ [] ∧ Forall (λ c, p c = true) s.
Proof.
  unfold Plus. split.
  - intros (s1 & s2 & -> & (c & -> & Hc)%matches_Class_inv
            & H2%matches_Star_Class)%matches_Seq_inv.
    split; [done |]. by constructor.
  - intros [Hne Hall]. destruct Hall as [| c s Hc Hall]; [done |].
    apply (matches_Seq _ _ [c] s); [by constructor |].
    by apply matches_Star_Class.
Qed.

End RegExpFacts.

(** ** The login form's validation *)

Section ValidationFacts.
Import RegExp Vocabulary.

Lemma not_space_or_at_plain c :
  negb (Js.is_space c || Ascii.eqb c "@") = true ↔ plain c.
Proof.
  unfold plain. rewrite negb_true_iff, orb_false_iff.
  destruct (Ascii.eqb_spec c "@"); split; intros [? ?]; split; congruence.
Qed.

Lemma matches_one_char (a : ascii) s :
  matches (Class (λ c, Ascii.eqb c a)) s ↔ s = [a].
Proof.
  split.
  - intros (c & -> & Hc%Ascii.eqb_eq)%matches_Class_inv. by subst.
  - intros ->. constructor. apply Ascii.eqb_refl.
Qed.

Lemma matches_plain_plus s :
  matches (Plus (Class (λ c, negb (Js.is_space c || Ascii.eqb c "@")))) s
  ↔ s ≠ [] ∧ Forall plain s.
Proof.
  rewrite matches_Plus_Class. apply and_iff_compat_l.
  apply Forall_proper; [| done]. intros c. apply not_space_or_at_plain.
Qed.

Lemma EMAIL_REGEX_test_iff (email : string) :
  RegExp.test AuthForm.EMAIL_REGEX email = true
  ↔ ∃ local name tld : list ascii,
      String.list_ascii_of_string email
        = local ++ "@"%char :: name ++ "."%char :: tld
      ∧ local ≠ [] ∧ name ≠ [] ∧ tld ≠ []
      ∧ Forall plain local ∧ Forall plain name ∧ Forall plain tld.
Proof.
  rewrite test_spec. unfold AuthForm.EMAIL_REGEX. split.
  - intros (l & s1 & -> & [Hl Hlp]%matches_plain_plus
            & (a & s2 & -> & ->%matches_one_char
            & (n & s3 & -> & [Hn Hnp]%matches_plain_plus
            & (d & t & -> & ->%matches_one_char
            & [Ht Htp]%matches_plain_plus)%matches_Seq_inv)%matches_Seq_inv
            )%matches_Seq_inv)%matches_Seq_inv.
    by exists l, n, t.
  - intros (l & n & t & -> & Hl & Hn & Ht & Hlp & Hnp & Htp).
    apply matches_Seq; [by apply matches_plain_plus |].
    apply (matches_Seq _ _ ["@"%char]); [by apply matches_one_char |].
    apply matches_Seq; [by apply matches_plain_plus |].
    apply (matches_Seq _ _ ["."%char]); [by apply matches_one_char |].
    by apply matches_plain_plus.
Qed.

(** X18. An e-mail passes [EMAIL_REGEX] exactly when it reads
    local@name.tld with three non-empty parts free of white space and of
    "@" (the name and the tld may hold further dots). *)
Theorem EMAIL_REGEX_accepts_iff (email : string) :
  RegExp.test AuthForm.EMAIL_REGEX email = true
  ↔ ∃ local name tld : list ascii,
      String.list_ascii_of_string email
        = local ++ "@"%char :: name ++ "."%char :: tld
      ∧ local ≠ [] ∧ name ≠ [] ∧ tld ≠ []
      ∧ Forall plain local ∧ Forall plain name ∧ Forall plain tld.
Proof. apply EMAIL_REGEX_test_iff. Qed.

Lemma isFormValid_iff (st : AuthForm.State) :
  AuthForm.isFormValid st = true
  ↔ AuthForm.email st ≠ ""%string
    ∧ RegExp.test AuthForm.EMAIL_REGEX (AuthForm.email st) = true
    ∧ AuthForm.password st ≠ ""%string.
Proof.
  unfold AuthForm.isFormValid.
  rewrite !andb_true_iff, !truthy_true. tauto.
Qed.

(** X19. A submit attempt marks both fields as touched, and it sends a request
    exactly when the form is valid, which is exactly when neither field
    then shows an error. *)
Theorem submit_sends_iff_no_field_error (st : AuthForm.State) :
  let after := (AuthForm.handleSubmit st).1 in
  AuthForm.touched after
    = {| AuthForm.Touched.email := true; AuthForm.Touched.password := true |}
  ∧ (AuthForm.isFormValid st = true
     ↔ (AuthForm.handleSubmit st).2
       = Some {| LoginCredentials.email := AuthForm.email st;
                 LoginCredentials.password := AuthForm.password st |})
  ∧ (AuthForm.isFormValid st = false ↔ (AuthForm.handleSubmit st).2 = None)
  ∧ (AuthForm.isFormValid st = true
     ↔ AuthForm.emailError after = ""%string
       ∧ AuthForm.passwordError after = ""%string).
Proof.
  unfold AuthForm.handleSubmit, AuthForm.emailError, AuthForm.passwordError,
    AuthForm.isFormValid. simpl.
  destruct (truthy (AuthForm.email st)),
    (RegExp.test AuthForm.EMAIL_REGEX (AuthForm.email st)),
    (truthy (AuthForm.password st)); simpl;
    split_and!; try done; split; try done; intros [? ?]; done.
Qed.

(** X20. What the form sends is what the fields hold, and it is never sent
    with an empty password nor with an e-mail that has white space, no
    "@" or more than one, an empty local part, or no dot after the "@". *)
Theorem submitted_credentials_are_well_formed
    (st : AuthForm.State) (creds : LoginCredentials.t) :
  (AuthForm.handleSubmit st).2 = Some creds →
  LoginCredentials.email creds = AuthForm.email st
  ∧ LoginCredentials.password creds = AuthForm.password st
  ∧ LoginCredentials.password creds ≠ ""%string
  ∧ Forall (λ c, Js.is_space c = false)
      (String.list_ascii_of_string (LoginCredentials.email creds))
  ∧ ∃ local domain : list ascii,
      String.list_ascii_of_string (LoginCredentials.email creds)
        = local ++ "@"%char :: domain
      ∧ local ≠ []
      ∧ ("@"%char ∉ local) ∧ ("@"%char ∉ domain) ∧ "."%char ∈ domain.
Proof.
  unfold AuthForm.handleSubmit. simpl.
  destruct (AuthForm.isFormValid st) eqn:Hvalid; simpl; [| done].
  intros [= <-]. simpl.
  apply isFormValid_iff in Hvalid as (_ & Hemail & Hpassword).
  apply EMAIL_REGEX_test_iff in Hemail
    as (l & n & t & Hchars & Hl & _ & _ & Hlp & Hnp & Htp).
  assert (∀ s, Forall plain s → "@"%char ∉ s) as Hno_at.
  { intros s Hs Hin. rewrite Forall_forall in Hs.
    by destruct (Hs _ Hin) as [_ ?]. }
  assert (∀ s, Forall plain s → Forall (λ c, Js.is_space c = false) s)
    as Hno_space.
  { intros s Hs. eapply Forall_impl; [exact Hs |]. by intros c [? _]. }
  split_and!; try done.
  - rewrite Hchars.
    apply Forall_app; split; [by apply Hno_space |].
    apply Forall_cons; split; [done |].
    apply Forall_app; split; [by apply Hno_space |].
    apply Forall_cons; split; [done | by apply Hno_space].
  - exists l, (n ++ "."%char :: t). split_and!; try done; auto.
    + rewrite not_elem_of_app, not_elem_of_cons. auto.
    + apply elem_of_app. right. apply elem_of_cons. by left.
Qed.

Lemma submitted_credentials_are_well_formed_witness :
  LoginCredentials.email
    {| LoginCredentials.email := "test@example.com";
       LoginCredentials.password := "password123" |}
  = AuthForm.email
      {| AuthForm.email := "test@example.com";
         AuthForm.password := "password123";
         AuthForm.touched := AuthForm.touched AuthForm.initial |}.
Proof.
  apply (submitted_credentials_are_well_formed
           {| AuthForm.email := "test@example.com";
              AuthForm.password := "password123";
              AuthForm.touched := AuthForm.touched AuthForm.initial |}).
  reflexivity.
Defined.

(** X21. Every e-mail of [TEST_USERS] passes the form's validation: with any
    non-empty password the form sends it, so each scenario of the backend
    can be reached from the form. *)
Theorem designated_emails_pass_the_form
    (email password : string) (touched : AuthForm.Touched.t) :
  email ∈ designated_emails →
  password ≠ ""%string →
  (AuthForm.handleSubmit
     {| AuthForm.email := email; AuthForm.password := password;
        AuthForm.touched := touched |}).2
  = Some {| LoginCredentials.email := email;
            LoginCredentials.password := password |}.
Proof.
  intros Hin Hpassword. unfold AuthForm.handleSubmit. simpl.
  assert (AuthForm.isFormValid
            {| AuthForm.email := email; AuthForm.password := password;
               AuthForm.touched := touched |} = true) as ->; [| done].
  apply isFormValid_iff. simpl.
  unfold designated_emails in Hin.
  repeat (apply elem_of_cons in Hin as [-> | Hin]; [by vm_compute |]).
  by apply elem_of_nil in Hin.
Qed.

Lemma designated_emails_pass_the_form_witness :
  (AuthForm.handleSubmit
     {| AuthForm.email := "offline@example.com"; AuthForm.password := "x";
        AuthForm.touched := AuthForm.touched AuthForm.initial |}).2
  = Some {| LoginCredentials.email := "offline@example.com";
            LoginCredentials.password := "x" |}.
Proof.
  apply designated_emails_pass_the_form.
  - unfold designated_emails.
    do 5 (apply elem_of_cons; right). apply elem_of_cons. by left.
  - discriminate.
Defined.

End ValidationFacts.

(** ** The six inputs of the 2FA form *)

Section CodeEntryFacts.
Import CodeEntry.

Implicit Types (code cells : list string) (c d : ascii).

Lemma append_cons c (s t : string) : String c s +:+ t = String c (s +:+ t).
Proof. reflexivity. Qed.

Lemma append_empty_l (t : string) : "" +:+ t = t.
Proof. reflexivity. Qed.

Lemma append_empty_r (s : string) : s +:+ "" = s.
Proof.
  induction s as [| c s IH]; [done |]. by rewrite append_cons, IH.
Qed.

Lemma join_cons cell cells : Js.join (cell :: cells) = cell +:+ Js.join cells.
Proof.
  unfold Js.join. destruct cells as [| cell' cells]; simpl.
  - by rewrite append_empty_r.
  - done.
Qed.

Lemma array_set_in_range cells i v :
  (i < length cells)%nat → Js.array_set cells i v = <[i := v]> cells.
Proof.
  intros Hi. unfold Js.array_set.
  by destruct (Nat.ltb_spec i (length cells)); [| lia].
Qed.

(** What [/^\d$/] accepts. *)
Lemma test_digit_iff value :
  RegExp.test (RegExp.Class Js.is_digit) value = true
  ↔ ∃ d, Js.is_digit d = true ∧ value = String d EmptyString.
Proof.
  rewrite test_spec. split.
  - intros (d & Hd & ?)%matches_Class_inv. exists d. split; [done |].
    destruct value as [| c [| c' value]]; simplify_eq/=; done.
  - intros (d & Hd & ->). by constructor.
Qed.

Lemma accepted_value_ok value :
  truthy value && negb (RegExp.test (RegExp.Class Js.is_digit) value) = false →
  cell_ok value.
Proof.
  unfold cell_ok. intros [H | H]%andb_false_iff.
  - left. unfold truthy in H. apply negb_false_iff in H.
    by apply String.eqb_eq.
  - right. apply negb_false_iff in H. by apply test_digit_iff.
Qed.

Lemma remove_non_digits_digits text : digits_only (Js.remove_non_digits text).
Proof.
  unfold digits_only. induction text as [| c text IH]; simpl; [constructor |].
  destruct (Js.is_digit c) eqn:Hc; simpl; [by constructor | done].
Qed.

Lemma substring_0_digits n s :
  digits_only s → digits_only (String.substring 0 n s).
Proof.
  unfold digits_only. revert n.
  induction s as [| c s IH]; intros [| n] Hs; simpl; try constructor.
  - by inversion Hs.
  - apply IH. by inversion Hs.
Qed.

Lemma substring_0_length n s :
  String.length (String.substring 0 n s) = (n `min` String.length s)%nat.
Proof.
  revert n. induction s as [| c s IH]; intros [| n]; simpl; try done.
  by rewrite IH.
Qed.

Lemma length_list_ascii_of_string (s : string) :
  length (String.list_ascii_of_string s) = String.length s.
Proof. induction s as [| c s IH]; simpl; [done | by rewrite IH]. Qed.

Lemma take_S_middle {A} (l : list A) x k :
  take (S (length l)) (l ++ x :: k) = l ++ [x].
Proof. induction l as [| y l IH]; simpl; [by rewrite take_0 | by rewrite IH]. Qed.

Lemma drop_S_middle {A} (l : list A) n x k :
  drop (S (length l) + n) (l ++ x :: k) = drop n k.
Proof. induction l as [| y l IH]; simpl; [done | by rewrite <- IH]. Qed.

(** The loop overwrites the cells from [i] on, one per pasted character. *)
Lemma paste_loop_in_range pastedData i code :
  (i + String.length pastedData ≤ length code)%nat →
  TwoFactorForm.paste_loop i pastedData code
  = take i code
    ++ ((λ c, String c EmptyString) <$> String.list_ascii_of_string pastedData)
    ++ drop (i + String.length pastedData) code.
Proof.
  revert i code. induction pastedData as [| c rest IH]; intros i code Hlen;
    simpl in *.
  - rewrite Nat.add_0_r. by rewrite take_drop.
  - rewrite array_set_in_range by lia.
    rewrite IH by (rewrite length_insert; lia).
    rewrite (insert_take_drop code i) by lia.
    assert (length (take i code) = i) as Htake by (rewrite length_take; lia).
    rewrite <- Htake at 1 4. rewrite take_S_middle, drop_S_middle.
    rewrite drop_drop, <- !(assoc_L (++)). simpl.
    by replace (i + S (String.length rest))%nat
      with (S (i + String.length rest)) by lia.
Qed.

Lemma findIndex_Some p cells i :
  Js.findIndex p cells = Some i →
  (i < length cells)%nat
  ∧ (∃ cell, cells !! i = Some cell ∧ p cell = true)
  ∧ (∀ j cell, (j < i)%nat → cells !! j = Some cell → p cell = false).
Proof.
  revert i. induction cells as [| cell cells IH]; intros i; simpl; [done |].
  destruct (p cell) eqn:Hp.
  - intros [= <-]. split_and!; [lia | by eexists | intros; lia].
  - destruct (Js.findIndex p cells) as [i' |]; simpl; [| done].
    intros [= <-]. destruct (IH i' eq_refl) as (Hlt & Hcell & Hfirst).
    split_and!; [lia | done |].
    intros [| j] cell' Hj; simpl; [by intros [= <-] |].
    apply Hfirst. lia.
Qed.

Lemma findIndex_None p cells :
  Js.findIndex p cells = None → Forall (λ cell, p cell = false) cells.
Proof.
  induction cells as [| cell cells IH]; simpl; [constructor |].
  destruct (p cell) eqn:Hp; [done |].
  destruct (Js.findIndex p cells); simpl; [done |].
  intros _. constructor; [done | by apply IH].
Qed.

(** The length of the joined cells, when each is empty or one digit. *)
Lemma join_length_le cells :
  Forall cell_ok cells →
  (String.length (Js.join cells) ≤ length cells)%nat
  ∧ (String.length (Js.join cells) = length cells
     ↔ Forall (λ cell, cell ≠ ""%string) cells)
  ∧ digits_only (Js.join cells).
Proof.
  unfold digits_only.
  induction 1 as [| cell cells Hcell _ IH].
  { split_and!; [done | done | constructor]. }
  destruct IH as (Hle & Hiff & Hdigits). rewrite join_cons.
  destruct Hcell as [-> | (d & Hd & ->)].
  - rewrite append_empty_l. simpl. split_and!; [lia | | done].
    split; [lia |]. by inversion 1.
  - rewrite append_cons, append_empty_l. simpl. split_and!; [lia | | by constructor].
    split.
    + intros [= Hlen]. constructor; [done | by apply Hiff].
    + inversion 1; subst. f_equal. by apply Hiff.
Qed.

(** One event keeps six cells, each empty or one digit. *)
Lemma step_keeps_cells code ev :
  on_an_input ev →
  length code = 6%nat ∧ Forall cell_ok code →
  length (step code ev) = 6%nat ∧ Forall cell_ok (step code ev).
Proof.
  intros Hev [Hlen Hok]. destruct ev as [index value | text]; simpl in *.
  - unfold TwoFactorForm.handleDigitChange.
    destruct (truthy value
              && negb (RegExp.test (RegExp.Class Js.is_digit) value))
      eqn:Hrej; simpl; [done |].
    rewrite array_set_in_range by lia. split.
    + by rewrite length_insert.
    + apply Forall_insert; [done | by apply accepted_value_ok].
  - unfold TwoFactorForm.handlePaste.
    destruct (truthy (String.substring 0 6 (Js.remove_non_digits text)));
      simpl; [| done].
    pose proof (substring_0_length 6 (Js.remove_non_digits text)) as Hsub.
    pose proof (substring_0_digits 6 _ (remove_non_digits_digits text))
      as Hdig.
    rewrite paste_loop_in_range by lia. simpl. split.
    + rewrite length_app, length_fmap, length_drop.
      rewrite length_list_ascii_of_string. lia.
    + apply Forall_app. split; [| by apply Forall_drop].
      apply Forall_fmap. eapply Forall_impl; [exact Hdig |].
      intros d Hd. right. by exists d.
Qed.

Lemma run_keeps_cells events code :
  Forall on_an_input events →
  length code = 6%nat ∧ Forall cell_ok code →
  length (run code events) = 6%nat ∧ Forall cell_ok (run code events).
Proof.
  revert code. induction events as [| ev events IH]; intros code Hev Hcode;
    [done |].
  apply Forall_cons in Hev as [Hev Hevents]. simpl.
  apply IH; [done |]. by apply step_keeps_cells.
Qed.



Lemma initial_code_ok :
  length TwoFactorForm.initial_code = 6%nat
  ∧ Forall cell_ok TwoFactorForm.initial_code.
Proof. split; [done |]. repeat constructor. Qed.

Lemma truthy_false (s : string) : truthy s = false ↔ s = ""%string.
Proof.
  unfold truthy. destruct (String.eqb_spec s ""); simpl; split; congruence.
Qed.

Lemma join_singletons (chars : list ascii) :
  Js.join ((λ c, String c EmptyString) <$> chars)
  = String.string_of_list_ascii chars.
Proof.
  induction chars as [| c chars IH]; [done |].
  rewrite fmap_cons, join_cons, IH. done.
Qed.

Lemma handleSubmit_Some tempToken code creds :
  TwoFactorForm.handleSubmit tempToken code = Some creds
  ↔ String.length (TwoFactorForm.fullCode code) = 6%nat
    ∧ creds = {| Verify2FACredentials.tempToken := tempToken;
                 Verify2FACredentials.code := TwoFactorForm.fullCode code |}.
Proof.
  unfold TwoFactorForm.handleSubmit, TwoFactorForm.isCodeComplete.
  destruct (Nat.eqb_spec (String.length (TwoFactorForm.fullCode code)) 6);
    simpl; split.
  - by intros [= <-].
  - by intros [_ ->].
  - done.
  - by intros [? _].
Qed.

(** X22. From the six empty cells, typing and pasting on the six inputs keep
    six cells, each empty or one decimal digit. *)
Theorem code_cells_stay_empty_or_one_digit (events : list CodeEntry.Event) :
  Forall on_an_input events →
  length (run TwoFactorForm.initial_code events) = 6%nat
  ∧ Forall cell_ok (run TwoFactorForm.initial_code events).
Proof. intros Hev. apply run_keeps_cells; [done | apply initial_code_ok]. Qed.

Lemma code_cells_stay_empty_or_one_digit_witness :
  length (run TwoFactorForm.initial_code
            [DigitChange 0 "7"; Paste "code: 12-34"; DigitChange 1 ""])
    = 6%nat
  ∧ Forall cell_ok
      (run TwoFactorForm.initial_code
         [DigitChange 0 "7"; Paste "code: 12-34"; DigitChange 1 ""]).
Proof.
  apply code_cells_stay_empty_or_one_digit.
  repeat constructor.
Defined.

(** X23. The 2FA form submits exactly when all six cells are filled, and what it
    then sends is the page's token and a code of exactly six decimal
    digits, the cells joined in order. *)
Theorem submit_sends_exactly_six_digits
    (events : list CodeEntry.Event) (tempToken : string) :
  Forall on_an_input events →
  let code := run TwoFactorForm.initial_code events in
  ((∃ creds, TwoFactorForm.handleSubmit tempToken code = Some creds)
   ↔ Forall (λ cell, cell ≠ ""%string) code)
  ∧ ∀ creds,
      TwoFactorForm.handleSubmit tempToken code = Some creds →
      Verify2FACredentials.tempToken creds = tempToken
      ∧ Verify2FACredentials.code creds = Js.join code
      ∧ String.length (Verify2FACredentials.code creds) = 6%nat
      ∧ digits_only (Verify2FACredentials.code creds).
Proof.
  intros Hev code.
  destruct (run_keeps_cells events _ Hev initial_code_ok) as [Hlen Hok].
  fold code in Hlen, Hok.
  destruct (join_length_le code Hok) as (_ & Hfull & Hdigits).
  rewrite Hlen in Hfull. split.
  - rewrite <- Hfull. split.
    + by intros (creds & [? _]%handleSubmit_Some).
    + intros Hsix. eexists. by apply handleSubmit_Some.
  - intros creds [Hsix ->]%handleSubmit_Some. simpl. done.
Qed.

Lemma submit_sends_exactly_six_digits_witness :
  TwoFactorForm.handleSubmit "temp-token-7"
    (run TwoFactorForm.initial_code [Paste "123 456"])
  = Some {| Verify2FACredentials.tempToken := "temp-token-7";
            Verify2FACredentials.code := "123456" |}
  ∧ String.length "123456" = 6%nat.
Proof.
  split; [reflexivity |].
  apply (proj2 (submit_sends_exactly_six_digits [Paste "123 456"]
                  "temp-token-7" ltac:(repeat constructor))
           {| Verify2FACredentials.tempToken := "temp-token-7";
              Verify2FACredentials.code := "123456" |}).
  reflexivity.
Defined.

(** X24. Pasting keeps the decimal digits of the text, at most the first six,
    and writes them over the cells from the left; the cells beyond stay as
    they are, and a text without a digit changes nothing. *)
Theorem paste_overwrites_from_the_left (text : string) (code : list string) :
  length code = 6%nat →
  let pastedData := String.substring 0 6 (Js.remove_non_digits text) in
  (TwoFactorForm.handlePaste text code).1
    = ((λ c, String c EmptyString) <$> String.list_ascii_of_string pastedData)
      ++ drop (String.length pastedData) code
  ∧ digits_only pastedData
  ∧ (String.length pastedData ≤ 6)%nat
  ∧ ((TwoFactorForm.handlePaste text code).2 = None ↔ pastedData = ""%string).
Proof.
  intros Hlen pastedData.
  pose proof (substring_0_length 6 (Js.remove_non_digits text)) as Hsub.
  fold pastedData in Hsub.
  assert (digits_only pastedData) as Hdig
    by apply substring_0_digits, remove_non_digits_digits.
  unfold TwoFactorForm.handlePaste. fold pastedData.
  destruct (truthy pastedData) eqn:Htruthy; simpl.
  - rewrite paste_loop_in_range by (simpl; lia). simpl.
    split_and!; [done | done | lia |].
    split; [done |]. intros ->. done.
  - apply truthy_false in Htruthy. rewrite Htruthy. simpl.
    split_and!; [done | constructor | lia | done].
Qed.

Lemma paste_overwrites_from_the_left_witness :
  (TwoFactorForm.handlePaste "1a2" ["9"; ""; ""; "7"; ""; ""]%string).1
  = ["1"; "2"; ""; "7"; ""; ""]%string.
Proof.
  apply (paste_overwrites_from_the_left "1a2" ["9"; ""; ""; "7"; ""; ""]%string).
  reflexivity.
Defined.

Lemma string_of_list_ascii_length (chars : list ascii) :
  String.length (String.string_of_list_ascii chars) = length chars.
Proof. induction chars as [| c chars IH]; simpl; [done | by rewrite IH]. Qed.

Lemma findIndex_singletons (chars : list ascii) :
  Js.findIndex (λ digit, negb (truthy digit))
    ((λ c, String c EmptyString) <$> chars) = None.
Proof.
  induction chars as [| c chars IH]; [done |].
  rewrite fmap_cons. simpl. by rewrite IH.
Qed.

(** X25. A text with six or more decimal digits, pasted into any six cells,
    fills all of them with its first six digits, asks for the focus on the
    last input, and makes the form submit exactly those digits. *)
Theorem pasting_six_digits_completes_the_code
    (text : string) (code : list string) (tempToken : string) :
  length code = 6%nat →
  (6 ≤ String.length (Js.remove_non_digits text))%nat →
  let pastedData := String.substring 0 6 (Js.remove_non_digits text) in
  TwoFactorForm.handlePaste text code
    = ((λ c, String c EmptyString) <$> String.list_ascii_of_string pastedData,
       Some 5%nat)
  ∧ TwoFactorForm.handleSubmit tempToken
      (TwoFactorForm.handlePaste text code).1
    = Some {| Verify2FACredentials.tempToken := tempToken;
              Verify2FACredentials.code := pastedData |}.
Proof.
  intros Hlen Hsix pastedData.
  pose proof (substring_0_length 6 (Js.remove_non_digits text)) as Hsub.
  fold pastedData in Hsub.
  assert (String.length pastedData = 6%nat) as Hpasted by lia.
  assert (TwoFactorForm.handlePaste text code
          = ((λ c, String c EmptyString)
               <$> String.list_ascii_of_string pastedData, Some 5%nat))
    as Hpaste.
  { unfold TwoFactorForm.handlePaste. fold pastedData.
    destruct (truthy pastedData) eqn:Htruthy.
    2: { apply truthy_false in Htruthy. by rewrite Htruthy in Hpasted. }
    rewrite paste_loop_in_range by (simpl; lia). simpl.
    rewrite Hpasted, <- Hlen, drop_all, app_nil_r.
    by rewrite findIndex_singletons. }
  split; [done |]. rewrite Hpaste. simpl.
  apply handleSubmit_Some. unfold TwoFactorForm.fullCode.
  rewrite join_singletons, String.string_of_list_ascii_of_string. done.
Qed.

Lemma pasting_six_digits_completes_the_code_witness :
  TwoFactorForm.handlePaste "Your code is 123-456 (valid 5 min)"
    ["9"; ""; ""; "7"; ""; ""]%string
  = (["1"; "2"; "3"; "4"; "5"; "6"]%string, Some 5%nat).
Proof.
  apply (pasting_six_digits_completes_the_code
           "Your code is 123-456 (valid 5 min)"
           ["9"; ""; ""; "7"; ""; ""]%string "temp-token-7").
  - reflexivity.
  - simpl. lia.
Defined.

(** X26. After a paste that changed the cells, the focus goes to the first
    empty cell, or to the last input when no cell is empty. *)
Theorem paste_focuses_the_first_empty_cell
    (text : string) (code : list string) (i : nat) :
  length code = 6%nat →
  (TwoFactorForm.handlePaste text code).2 = Some i →
  let newCode := (TwoFactorForm.handlePaste text code).1 in
  (i < 6)%nat
  ∧ ((newCode !! i = Some ""%string
      ∧ ∀ j, (j < i)%nat → newCode !! j ≠ Some ""%string)
     ∨ (i = 5%nat ∧ Forall (λ cell, cell ≠ ""%string) newCode)).
Proof.
  intros Hlen. unfold TwoFactorForm.handlePaste.
  pose proof (substring_0_length 6 (Js.remove_non_digits text)) as Hsub.
  destruct (truthy (String.substring 0 6 (Js.remove_non_digits text)));
    simpl; [| done].
  intros [= <-].
  assert (length (TwoFactorForm.paste_loop 0
            (String.substring 0 6 (Js.remove_non_digits text)) code) = 6%nat)
    as Hnew.
  { rewrite paste_loop_in_range by (simpl; lia). simpl.
    rewrite length_app, length_fmap, length_drop,
      length_list_ascii_of_string. lia. }
  destruct (Js.findIndex _ _) as [i |] eqn:Hfind.
  - apply findIndex_Some in Hfind as (Hlt & (cell & Hcell & Hempty) & Hfirst).
    split; [lia |]. left.
    apply negb_true_iff, truthy_false in Hempty. subst cell.
    split; [done |]. intros j Hj Hcellj.
    specialize (Hfirst j _ Hj Hcellj). done.
  - apply findIndex_None in Hfind. split; [lia |]. right. split; [done |].
    eapply Forall_impl; [exact Hfind |]. intros cell Hcell.
    apply negb_false_iff in Hcell. by apply truthy_true.
Qed.

Lemma paste_focuses_the_first_empty_cell_witness :
  (2 < 6)%nat
  ∧ ((["1"; "2"; ""; "7"; ""; ""]%string !! 2%nat = Some ""%string
      ∧ ∀ j, (j < 2)%nat →
          ["1"; "2"; ""; "7"; ""; ""]%string !! j ≠ Some ""%string)
     ∨ (2%nat = 5%nat
        ∧ Forall (λ cell, cell ≠ ""%string)
            ["1"; "2"; ""; "7"; ""; ""]%string)).
Proof.
  apply (paste_focuses_the_first_empty_cell "1a2"
           ["9"; ""; ""; "7"; ""; ""]%string 2);
    reflexivity.
Defined.

(** X27. A change of one input is taken only when the value is empty or one
    decimal digit: the cell then holds the value, and a digit typed before
    the last input moves the focus to the next; any other value changes
    nothing. *)
Theorem digit_change_takes_one_digit_or_nothing
    (index : nat) (value : string) (prev : list string) :
  (index < length prev)%nat →
  (cell_ok value →
     TwoFactorForm.handleDigitChange index value prev
     = (<[index := value]> prev,
        if decide (value ≠ ""%string ∧ index < 5)%nat
        then Some (S index) else None))
  ∧ (¬ cell_ok value →
       TwoFactorForm.handleDigitChange index value prev = (prev, None)).
Proof.
  intros Hindex. unfold TwoFactorForm.handleDigitChange. split.
  - intros Hok.
    assert (truthy value
            && negb (RegExp.test (RegExp.Class Js.is_digit) value) = false)
      as ->.
    { destruct Hok as [-> | Hdigit%test_digit_iff]; [done |].
      rewrite Hdigit. apply andb_false_r. }
    rewrite array_set_in_range by done. f_equal.
    destruct (truthy value) eqn:Htruthy; simpl.
    + apply truthy_true in Htruthy.
      destruct (Nat.ltb_spec index 5);
        destruct (decide (value ≠ ""%string ∧ (index < 5)%nat))
          as [[_ Hlt] | Hno]; try done; try lia.
      * f_equal. lia.
      * by destruct Hno.
    + apply truthy_false in Htruthy.
      by destruct (decide (value ≠ ""%string ∧ (index < 5)%nat))
        as [[Hne _] | _].
  - intros Hnot.
    destruct (truthy value
              && negb (RegExp.test (RegExp.Class Js.is_digit) value))
      eqn:Hrej; [done |].
    destruct Hnot. by apply accepted_value_ok.
Qed.

Lemma digit_change_takes_one_digit_or_nothing_witness :
  TwoFactorForm.handleDigitChange 2 "5" TwoFactorForm.initial_code
  = ([""; ""; "5"; ""; ""; ""]%string, Some 3%nat).
Proof.
  apply (digit_change_takes_one_digit_or_nothing 2 "5"
           TwoFactorForm.initial_code).
  - simpl. lia.
  - right. by exists "5"%char.
Defined.

(** X28. With six cells, no handler asks for the focus on an input that does
    not exist. *)
Theorem focus_requests_stay_among_the_inputs
    (code : list string) (index : nat) (value key text : string) (i : nat) :
  length code = 6%nat →
  (index < 6)%nat →
  (TwoFactorForm.handleDigitChange index value code).2 = Some i
  ∨ TwoFactorForm.handleKeyDown index key code = Some i
  ∨ (TwoFactorForm.handlePaste text code).2 = Some i →
  (i < 6)%nat.
Proof.
  intros Hlen Hindex [Hfocus | [Hfocus | Hfocus]].
  - unfold TwoFactorForm.handleDigitChange in Hfocus.
    destruct (truthy value && negb _); simpl in Hfocus; [done |].
    destruct (truthy value); simpl in Hfocus; [| done].
    destruct (Nat.ltb_spec index 5); simplify_eq. lia.
  - unfold TwoFactorForm.handleKeyDown in Hfocus.
    destruct (_ && _); simplify_eq. lia.
  - unfold TwoFactorForm.handlePaste in Hfocus.
    pose proof (substring_0_length 6 (Js.remove_non_digits text)) as Hsub.
    destruct (truthy _); simpl in Hfocus; [| done].
    destruct (Js.findIndex _ _) as [j |] eqn:Hfind; simplify_eq; [| lia].
    apply findIndex_Some in Hfind as (Hlt & _).
    rewrite paste_loop_in_range in Hlt by (simpl; lia). simpl in Hlt.
    rewrite length_app, length_fmap, length_drop,
      length_list_ascii_of_string in Hlt. lia.
Qed.

Lemma focus_requests_stay_among_the_inputs_witness : (2 < 6)%nat.
Proof.
  apply (focus_requests_stay_among_the_inputs
           ["1"; "2"; "3"; ""; ""; ""]%string 3 "" "Backspace" "" 2).
  - reflexivity.
  - lia.
  - right. left. reflexivity.
Defined.

(** X29. Typing six decimal digits into the six inputs, first to last, over
    whatever the cells held, makes the form submit exactly these digits. *)
Theorem typing_six_digits_submits_them
    (d0 d1 d2 d3 d4 d5 : ascii) (code : list string) (tempToken : string) :
  Forall (λ d, Js.is_digit d = true) [d0; d1; d2; d3; d4; d5] →
  length code = 6%nat →
  TwoFactorForm.handleSubmit tempToken
    (run code
       [ DigitChange 0 (String d0 EmptyString);
         DigitChange 1 (String d1 EmptyString);
         DigitChange 2 (String d2 EmptyString);
         DigitChange 3 (String d3 EmptyString);
         DigitChange 4 (String d4 EmptyString);
         DigitChange 5 (String d5 EmptyString) ])
  = Some {| Verify2FACredentials.tempToken := tempToken;
            Verify2FACredentials.code :=
              String.string_of_list_ascii [d0; d1; d2; d3; d4; d5] |}.
Proof.
  intros Hdigits Hlen.
  destruct code as [| c0 [| c1 [| c2 [| c3 [| c4 [| c5 [| c6 code]]]]]]];
    try done.
  repeat match goal with
         | H : Forall _ (_ :: _) |- _ => apply Forall_cons in H as [? H]
         end.
  unfold run. simpl. unfold TwoFactorForm.handleDigitChange. simpl.
  repeat match goal with H : Js.is_digit _ = true |- _ => rewrite H; clear H end.
  reflexivity.
Qed.

Lemma typing_six_digits_submits_them_witness :
  TwoFactorForm.handleSubmit "temp-token-7"
    (run TwoFactorForm.initial_code
       [ DigitChange 0 "1"; DigitChange 1 "2"; DigitChange 2 "3";
         DigitChange 3 "4"; DigitChange 4 "5"; DigitChange 5 "6" ])
  = Some {| Verify2FACredentials.tempToken := "temp-token-7";
            Verify2FACredentials.code := "123456" |}.
Proof.
  apply (typing_six_digits_submits_them "1" "2" "3" "4" "5" "6"
           TwoFactorForm.initial_code "temp-token-7").
  - repeat constructor.
  - reflexivity.
Defined.

End CodeEntryFacts.

(** ** Field errors of the login form *)

Section LoginEntryFacts.

Import LoginEntry.

Lemma step_keeps_touched st ev :
  is_typing ev = true → AuthForm.touched (step st ev) = AuthForm.touched st.
Proof. by destruct ev. Qed.

Lemma step_touched_mono st ev :
  (AuthForm.Touched.email (AuthForm.touched st) = true →
   AuthForm.Touched.email (AuthForm.touched (step st ev)) = true)
  ∧ (AuthForm.Touched.password (AuthForm.touched st) = true →
     AuthForm.Touched.password (AuthForm.touched (step st ev)) = true).
Proof. by destruct ev. Qed.

(** X30. Typing alone never shows a field error: from the initial form,
    over any changes of the two fields, [emailError] and [passwordError]
    stay empty. They are shown only once a field was left or a submit was
    tried, and a field once touched stays touched over every event. *)
Theorem field_errors_need_a_touch (events : list LoginEntry.Event) :
  (Forall (λ ev, is_typing ev = true) events →
     AuthForm.emailError (run AuthForm.initial events) = ""%string
     ∧ AuthForm.passwordError (run AuthForm.initial events) = ""%string)
  ∧ (∀ st,
       (AuthForm.emailError st ≠ ""%string →
        AuthForm.Touched.email (AuthForm.touched st) = true)
       ∧ (AuthForm.passwordError st ≠ ""%string →
          AuthForm.Touched.password (AuthForm.touched st) = true))
  ∧ (∀ st,
       (AuthForm.Touched.email (AuthForm.touched st) = true →
        AuthForm.Touched.email (AuthForm.touched (run st events)) = true)
       ∧ (AuthForm.Touched.password (AuthForm.touched st) = true →
          AuthForm.Touched.password (AuthForm.touched (run st events))
          = true)).
Proof.
  split_and!.
  - intros Htyping.
    assert (AuthForm.touched (run AuthForm.initial events)
            = AuthForm.touched AuthForm.initial) as Htouched.
    { induction events as [| ev events IH] using rev_ind; [done |].
      rewrite Forall_app, Forall_singleton in Htyping.
      destruct Htyping as [Hevents Hev].
      unfold run in *. rewrite foldl_app. simpl.
      rewrite step_keeps_touched by done. by apply IH. }
    unfold AuthForm.emailError, AuthForm.passwordError.
    by rewrite Htouched.
  - intros st. unfold AuthForm.emailError, AuthForm.passwordError.
    by destruct (AuthForm.Touched.email (AuthForm.touched st)),
      (AuthForm.Touched.password (AuthForm.touched st)).
  - induction events as [| ev events IH] using rev_ind; [done |].
    intros st. unfold run in *. rewrite foldl_app. simpl.
    destruct (IH st) as [IHe IHp].
    destruct (step_touched_mono (foldl step st events) ev) as [He Hp].
    split; auto.
Qed.

End LoginEntryFacts.
